(** * The WebRTC call service and its WebSocket handler

    A shallow embedding of [backend/src/services/webrtc/webrtcService.js]
    (class [WebRTCService]) and of the event handlers of
    [backend/src/websocket/webrtcHandler.js] that guard it.

    Conventions of the embedding.
    - The service object is a record [Service]; each [async] method is a
      function from the service state to the new state and the returned
      result object ([Ok] for [{success: true, ...}], [Err msg] for
      [{success: false, error: msg}]).
    - Every [new Date()] / [Date.now()] of a method is the argument [now],
      a number of milliseconds.
    - User identities are JavaScript primitives.  The backend issues numeric
      ids ([id: 1], [id: userIdCounter++], copied to [socket.userId] from the
      token), clients may send strings: both are kept, [IdNum] and [IdStr].
      [===], [Array.prototype.includes] and [Map] keys compare them without
      conversion; a property access [obj[id]] converts the id to its
      property key, a string ([propKey]).
    - [call.connectionStatus] is a plain object used as a map: a
      [gmap string ConnStatus] on property keys.  The code never depends on
      the enumeration order of its entries (only on how many are connected
      and, when there is exactly one, which).
    - [call_history.json] is the field [historyFile]; a file whose content
      makes the [try] block of [saveCallToHistory] throw is [Garbled].
    - A [Map] enumerates its entries in insertion order, which the
      [gmap]s of [Service] do not record: a method that enumerates
      [activeCalls] takes the order of its keys as an argument.
    - Outside the model: ids that are not integers or strings, integers
      that [String] does not print in plain decimal digits, the property
      key [__proto__] (a plain object does not store it), failing writes,
      and [socket.userInfo], which the handlers only pass along. *)

From stdpp Require Import gmap strings list fin_maps pretty.

Open Scope Z_scope.

(** ** Identities *)

Inductive JsId : Type :=
  | IdNum (n : Z)
  | IdStr (s : string).

Global Instance JsId_eq_dec : EqDecision JsId.
Proof. solve_decision. Defined.

Definition JsId_to_sum (u : JsId) : Z + string :=
  match u with IdNum n => inl n | IdStr s => inr s end.

Definition JsId_of_sum (x : Z + string) : JsId :=
  match x with inl n => IdNum n | inr s => IdStr s end.

Global Instance JsId_countable : Countable JsId.
Proof.
  apply (inj_countable' JsId_to_sum JsId_of_sum).
  by intros [n|s].
Defined.

(** [String(id)], the conversion applied by [obj[id]] and by a template
    literal: decimal digits for an integer, the string itself otherwise. *)
Definition propKey (u : JsId) : string :=
  match u with
  | IdNum n => pretty n
  | IdStr s => s
  end.

(** JavaScript truthiness of an optional identity ([undefined], [0] and the
    empty string are falsy). *)
Definition truthyId (o : option JsId) : bool :=
  match o with
  | None => false
  | Some (IdNum n) => negb (n =? 0)
  | Some (IdStr s) => negb (String.eqb s "")
  end.

(** [x || dflt] on an optional string. *)
Definition strOr (o : option string) (dflt : string) : string :=
  match o with
  | Some s => if String.eqb s "" then dflt else s
  | None => dflt
  end.

(** [arr.includes(x)] *)
Definition includes (x : JsId) (arr : list JsId) : bool :=
  bool_decide (x ∈ arr).

(** ** Data model *)

Inductive ConnStatus : Type := pending | connected | disconnected.
Inductive CallStatus : Type := initiating | active | ended.
Inductive RecStatus : Type := rec_recording | rec_completed.

Global Instance ConnStatus_eq_dec : EqDecision ConnStatus.
Proof. solve_decision. Defined.
Global Instance CallStatus_eq_dec : EqDecision CallStatus.
Proof. solve_decision. Defined.
Global Instance RecStatus_eq_dec : EqDecision RecStatus.
Proof. solve_decision. Defined.

(** [call.recording] *)
Record Recording : Type := mkRecording {
  r_id : string;
  r_path : string;
  r_status : RecStatus;
  r_startTime : Z;
  r_endTime : option Z;
  r_size : N
}.

(** An element of [call.messages]. *)
Record Message : Type := mkMessage {
  m_type : string;
  m_userId : JsId;
  m_payload : string;
  m_timestamp : Z
}.

(** The call object built by [initiateCall]. *)
Record Call : Type := mkCall {
  c_id : string;
  initiatorId : JsId;
  participants : list JsId;
  c_type : string;
  title : string;
  status : CallStatus;
  startTime : Z;
  endTime : option Z;
  duration : Z;
  recording : option Recording;
  messages : list Message;
  connectionStatus : gmap string ConnStatus
}.

(** The object [callHistory] pushed by [saveCallToHistory]. *)
Record CallHistory : Type := mkCallHistory {
  h_id : string;
  h_initiatorId : JsId;
  h_participants : list JsId;
  h_type : string;
  h_title : string;
  h_startTime : Z;
  h_endTime : option Z;
  h_duration : Z;
  h_recording : option Recording;
  h_participantCount : nat;
  h_status : CallStatus
}.

Inductive HistoryFile : Type :=
  | NoFile
  | Json (history : list CallHistory)
  | Garbled.

(** The singleton [new WebRTCService()], with the part of the file system
    it reads and writes. *)
Record Service : Type := mkService {
  activeCalls : gmap string Call;
  userConnections : gmap JsId string;
  recordingsPath : string;
  historyFile : HistoryFile;
  recordingFiles : gmap string N
}.

Inductive Result (A : Type) : Type :=
  | Ok (a : A)
  | Err (error : string).
Arguments Ok {A} a.
Arguments Err {A} error.

(** ** Field updates (assignments to one property) *)

Definition set_status (v : CallStatus) (c : Call) : Call :=
  mkCall (c_id c) (initiatorId c) (participants c) (c_type c) (title c) v
    (startTime c) (endTime c) (duration c) (recording c) (messages c)
    (connectionStatus c).

Definition set_startTime (v : Z) (c : Call) : Call :=
  mkCall (c_id c) (initiatorId c) (participants c) (c_type c) (title c)
    (status c) v (endTime c) (duration c) (recording c) (messages c)
    (connectionStatus c).

Definition set_endTime (v : option Z) (c : Call) : Call :=
  mkCall (c_id c) (initiatorId c) (participants c) (c_type c) (title c)
    (status c) (startTime c) v (duration c) (recording c) (messages c)
    (connectionStatus c).

Definition set_duration (v : Z) (c : Call) : Call :=
  mkCall (c_id c) (initiatorId c) (participants c) (c_type c) (title c)
    (status c) (startTime c) (endTime c) v (recording c) (messages c)
    (connectionStatus c).

Definition set_recording (v : option Recording) (c : Call) : Call :=
  mkCall (c_id c) (initiatorId c) (participants c) (c_type c) (title c)
    (status c) (startTime c) (endTime c) (duration c) v (messages c)
    (connectionStatus c).

Definition set_messages (v : list Message) (c : Call) : Call :=
  mkCall (c_id c) (initiatorId c) (participants c) (c_type c) (title c)
    (status c) (startTime c) (endTime c) (duration c) (recording c) v
    (connectionStatus c).

Definition set_connectionStatus (v : gmap string ConnStatus) (c : Call) : Call :=
  mkCall (c_id c) (initiatorId c) (participants c) (c_type c) (title c)
    (status c) (startTime c) (endTime c) (duration c) (recording c)
    (messages c) v.

Definition set_activeCalls (v : gmap string Call) (s : Service) : Service :=
  mkService v (userConnections s) (recordingsPath s) (historyFile s)
    (recordingFiles s).

Definition set_userConnections (v : gmap JsId string) (s : Service) : Service :=
  mkService (activeCalls s) v (recordingsPath s) (historyFile s)
    (recordingFiles s).

Definition set_historyFile (v : HistoryFile) (s : Service) : Service :=
  mkService (activeCalls s) (userConnections s) (recordingsPath s) v
    (recordingFiles s).

Definition set_recordingFiles (v : gmap string N) (s : Service) : Service :=
  mkService (activeCalls s) (userConnections s) (recordingsPath s)
    (historyFile s) v.

(** ** The service: [webrtcService.js] *)

(** [path.join(dir, name)] for a directory and a plain file name. *)
Definition pathJoin (dir name : string) : string := dir +:+ "/" +:+ name.

(** [Object.values(cs).filter(status => status === 'connected').length] *)
Definition connectedCount (cs : gmap string ConnStatus) : nat :=
  length (filter (λ v, v = connected) (snd <$> map_to_list cs)).

(** [Object.entries(cs).filter(([_, status]) => status === 'connected')
      .map(([userId, _]) => userId)] *)
Definition connectedUsers (cs : gmap string ConnStatus) : list string :=
  fst <$> filter (λ kv, snd kv = connected) (map_to_list cs).

(** [participants.forEach(p => { cs[p] = 'pending'; })] on [cs = {}] *)
Definition initConnectionStatus (ps : list JsId) : gmap string ConnStatus :=
  foldl (λ cs p, <[propKey p := pending]> cs) ∅ ps.

(** [initiateCall(callData)]: no validation of any field. *)
Definition initiateCall (now : Z) (callId : string) (initiator : JsId)
    (ps : list JsId) (type : string) (ttl : option string) (s : Service)
    : Service * Result Call :=
  let call :=
    mkCall callId initiator ps type (strOr ttl "Call") initiating now None 0
      None [] (initConnectionStatus ps) in
  (set_activeCalls (<[callId := call]> (activeCalls s)) s, Ok call).

(** [participants.every(p => cs[p] === 'connected')] *)
Definition allConnected (ps : list JsId) (cs : gmap string ConnStatus) : bool :=
  forallb (λ p, bool_decide (cs !! propKey p = Some connected)) ps.

(** [joinCall(callId, userId, socketId)], returning the call and
    [participantCount]. *)
Definition joinCall (now : Z) (callId : string) (userId : JsId)
    (socketId : string) (s : Service) : Service * Result (Call * nat) :=
  match activeCalls s !! callId with
  | None => (s, Err "Call not found")
  | Some call =>
    if negb (includes userId (participants call))
       && bool_decide (initiatorId call ≠ userId)
    then (s, Err "User not invited to this call")
    else
      let cs := <[propKey userId := connected]> (connectionStatus call) in
      let call1 := set_connectionStatus cs call in
      let call2 :=
        if allConnected (participants call1) cs
           && bool_decide (status call1 = initiating)
        then set_startTime now (set_status active call1)
        else call1 in
      let s1 := set_activeCalls (<[callId := call2]> (activeCalls s)) s in
      let s2 := set_userConnections (<[userId := socketId]> (userConnections s1)) s1 in
      (s2, Ok (call2, connectedCount (connectionStatus call2)))
  end.

(** The record [callHistory] of [saveCallToHistory]. *)
Definition toHistory (call : Call) : CallHistory :=
  mkCallHistory (c_id call) (initiatorId call) (participants call)
    (c_type call) (title call) (startTime call) (endTime call)
    (duration call) (recording call) (length (participants call))
    (status call).

(** [history.push(r); if (history.length > 100) history = history.slice(-100)] *)
Definition pushCapped (history : list CallHistory) (r : CallHistory)
    : list CallHistory :=
  let h := history ++ [r] in
  if bool_decide (100 < length h)%nat then drop (length h - 100)%nat h else h.

(** [saveCallToHistory(call)]; the boolean is the [success] of its result.
    An exception in the [try] block is caught and leaves the file as it
    was. *)
Definition saveCallToHistory (call : Call) (s : Service) : Service * bool :=
  match historyFile s with
  | NoFile => (set_historyFile (Json (pushCapped [] (toHistory call))) s, true)
  | Json h => (set_historyFile (Json (pushCapped h (toHistory call))) s, true)
  | Garbled => (s, false)
  end.

(** [call.participants.forEach(p => this.userConnections.delete(p))] *)
Definition clearConnections (ps : list JsId) (m : gmap JsId string)
    : gmap JsId string :=
  foldl (λ m p, delete p m) m ps.

(** [endCall(callId)] *)
Definition endCall (now : Z) (callId : string) (s : Service)
    : Service * Result Call :=
  match activeCalls s !! callId with
  | None => (s, Err "Call not found")
  | Some call =>
    let call1 := set_status ended call in
    let call2 := set_endTime (Some now) call1 in
    let call3 := set_duration (now - startTime call2) call2 in
    let s1 := fst (saveCallToHistory call3 s) in
    let s2 := set_activeCalls (delete callId (activeCalls s1)) s1 in
    let s3 := set_userConnections
                (clearConnections (participants call3) (userConnections s2)) s2 in
    (s3, Ok call3)
  end.

(** The test of [leaveCall] that decides whether the call ends. *)
Definition shouldEnd (users : list string) (initiator : JsId) : bool :=
  bool_decide (length users = 0%nat)
  || (bool_decide (length users = 1%nat)
      && bool_decide (IdStr <$> head users = Some initiator)).

(** [leaveCall(callId, userId)], returning the call and
    [participantCount].  The status is written for any [userId], invited
    or not. *)
Definition leaveCall (now : Z) (callId : string) (userId : JsId)
    (s : Service) : Service * Result (Call * nat) :=
  match activeCalls s !! callId with
  | None => (s, Err "Call not found")
  | Some call =>
    let cs := <[propKey userId := disconnected]> (connectionStatus call) in
    let call1 := set_connectionStatus cs call in
    let s1 := set_activeCalls (<[callId := call1]> (activeCalls s)) s in
    let s2 := set_userConnections (delete userId (userConnections s1)) s1 in
    let users := connectedUsers cs in
    if shouldEnd users (initiatorId call1) then
      let '(s3, r) := endCall now callId s2 in
      (s3, Ok (match r with Ok c => c | Err _ => call1 end, length users))
    else (s2, Ok (call1, length users))
  end.

(** [startRecording(callId)] *)
Definition startRecording (now : Z) (callId : string) (s : Service)
    : Service * Result Recording :=
  match activeCalls s !! callId with
  | None => (s, Err "Call not found")
  | Some call =>
    match recording call with
    | Some (mkRecording _ _ rec_recording _ _ _) =>
        (s, Err "Call is already being recorded")
    | _ =>
      let recordingId := callId +:+ "_" +:+ pretty now in
      let recordingPath := pathJoin (recordingsPath s) (recordingId +:+ ".webm") in
      let r := mkRecording recordingId recordingPath rec_recording now None 0 in
      let call1 := set_recording (Some r) call in
      (set_activeCalls (<[callId := call1]> (activeCalls s)) s, Ok r)
    end
  end.

(** [stopRecording(callId)]; the size is read from the file when it exists. *)
Definition stopRecording (now : Z) (callId : string) (s : Service)
    : Service * Result Recording :=
  match activeCalls s !! callId with
  | None => (s, Err "Call not found")
  | Some call =>
    match recording call with
    | Some (mkRecording rid rpath rec_recording rstart _ rsize) =>
      let size :=
        match recordingFiles s !! rpath with
        | Some n => n
        | None => rsize
        end in
      let r := mkRecording rid rpath rec_completed rstart (Some now) size in
      let call1 := set_recording (Some r) call in
      (set_activeCalls (<[callId := call1]> (activeCalls s)) s, Ok r)
    | _ => (s, Err "No active recording found")
    end
  end.

(** [saveRecordingChunk(callId, chunk)]: [fs.appendFileSync] grows the file
    (creating it when absent) by the length of the chunk. *)
Definition saveRecordingChunk (callId : string) (chunk : list Byte.byte)
    (s : Service) : Service * Result unit :=
  match activeCalls s !! callId with
  | None => (s, Err "No active recording")
  | Some call =>
    match recording call with
    | Some (mkRecording _ rpath rec_recording _ _ _) =>
      let old := default 0%N (recordingFiles s !! rpath) in
      (set_recordingFiles
         (<[rpath := (old + N.of_nat (length chunk))%N]> (recordingFiles s)) s,
       Ok tt)
    | _ => (s, Err "No active recording")
    end
  end.

(** [getActiveCall(callId)] *)
Definition getActiveCall (callId : string) (s : Service) : Result Call :=
  match activeCalls s !! callId with
  | Some call => Ok call
  | None => Err "Call not found"
  end.

(** [handleSignaling(data)]: the sender is not looked up among the
    participants. *)
Definition handleSignaling (now : Z) (callId type : string) (userId : JsId)
    (payload : string) (s : Service) : Service * Result (Message * Call) :=
  match activeCalls s !! callId with
  | None => (s, Err "Call not found")
  | Some call =>
    let message := mkMessage type userId payload now in
    let call1 := set_messages (messages call ++ [message]) call in
    (set_activeCalls (<[callId := call1]> (activeCalls s)) s,
     Ok (message, call1))
  end.

(** ** The handler: [webrtcHandler.js] *)

(** What a handler needs of its socket. *)
Record Socket : Type := mkSocket {
  sock_userId : JsId;
  sock_id : string
}.

(** Where an event is sent: [socket.emit], [this.io.to(room).emit],
    [socket.to(room).emit]. *)
Inductive Dest : Type :=
  | ToSender
  | ToRoom (room : string)
  | ToRoomExceptSender (room : string).

Inductive Payload : Type :=
  | PError (error : string)
  | PCall (call : Call)
  | PRecording (r : Recording)
  | PSignal (callId type : string) (fromUserId : JsId) (payload : string).

Inductive Effect : Type :=
  | Emit (d : Dest) (event : string) (p : Payload)
  | JoinRoom (room : string)
  | AnalyzeCallRecording (callId : string) (r : Recording) (call : option Call).

(** [socket.on('call:initiate', ...)]; [callId] is the generated id. *)
Definition on_call_initiate (now : Z) (sock : Socket) (callId : string)
    (ps : list JsId) (type ttl : option string) (s : Service)
    : Service * list Effect :=
  let '(s1, r) :=
    initiateCall now callId (sock_userId sock) ps (strOr type "audio") ttl s in
  match r with
  | Ok call =>
    (s1, JoinRoom callId
         :: Emit ToSender "call:initiated" (PCall call)
         :: ((λ p, Emit (ToRoomExceptSender ("user_" +:+ propKey p))
                     "call:incoming" (PCall call)) <$> ps))
  | Err e => (s1, [Emit ToSender "call:error" (PError e)])
  end.

(** [socket.on('call:end', ...)] *)
Definition on_call_end (now : Z) (sock : Socket) (callId : string)
    (s : Service) : Service * list Effect :=
  match getActiveCall callId s with
  | Err _ => (s, [Emit ToSender "call:error" (PError "Call not found")])
  | Ok call =>
    if bool_decide (initiatorId call ≠ sock_userId sock) then
      (s, [Emit ToSender "call:error"
             (PError "Only call initiator can end the call")])
    else
      let '(s1, r) := endCall now callId s in
      match r with
      | Ok c => (s1, [Emit (ToRoom callId) "call:ended" (PCall c)])
      | Err e => (s1, [Emit ToSender "call:error" (PError e)])
      end
  end.

(** The room of [socket.to(...)] in the 'webrtc:signal' handler:
    [`user_${targetUserId}`] when [targetUserId] is truthy, else [callId]. *)
Definition relayRoom (callId : string) (targetUserId : option JsId) : string :=
  match targetUserId with
  | Some t => if truthyId targetUserId then "user_" +:+ propKey t else callId
  | None => callId
  end.

(** [socket.on('webrtc:signal', ...)] *)
Definition on_webrtc_signal (now : Z) (sock : Socket) (callId type : string)
    (targetUserId : option JsId) (payload : string) (s : Service)
    : Service * list Effect :=
  let '(s1, r) := handleSignaling now callId type (sock_userId sock) payload s in
  match r with
  | Ok _ =>
    (s1, [Emit (ToRoomExceptSender (relayRoom callId targetUserId))
            "webrtc:signal" (PSignal callId type (sock_userId sock) payload)])
  | Err _ => (s1, [])
  end.

(** [socket.on('call:start-recording', ...)] *)
Definition on_call_start_recording (now : Z) (sock : Socket) (callId : string)
    (s : Service) : Service * list Effect :=
  match getActiveCall callId s with
  | Err _ => (s, [Emit ToSender "call:error" (PError "Call not found")])
  | Ok call =>
    if bool_decide (initiatorId call ≠ sock_userId sock) then
      (s, [Emit ToSender "call:error"
             (PError "Only call initiator can start recording")])
    else
      let '(s1, r) := startRecording now callId s in
      match r with
      | Ok rec => (s1, [Emit (ToRoom callId) "call:recording-started" (PRecording rec)])
      | Err e => (s1, [Emit ToSender "call:error" (PError e)])
      end
  end.

(** [socket.on('call:stop-recording', ...)]; the analysis is started and not
    awaited. *)
Definition on_call_stop_recording (now : Z) (sock : Socket) (callId : string)
    (s : Service) : Service * list Effect :=
  match getActiveCall callId s with
  | Err _ => (s, [Emit ToSender "call:error" (PError "Call not found")])
  | Ok call =>
    if bool_decide (initiatorId call ≠ sock_userId sock) then
      (s, [Emit ToSender "call:error"
             (PError "Only call initiator can stop recording")])
    else
      let '(s1, r) := stopRecording now callId s in
      match r with
      | Ok rec =>
        (s1, Emit (ToRoom callId) "call:recording-stopped" (PRecording rec)
             :: (if negb (String.eqb (r_path rec) "")
                 then [AnalyzeCallRecording callId rec (activeCalls s1 !! callId)]
                 else []))
      | Err e => (s1, [Emit ToSender "call:error" (PError e)])
      end
  end.

(** ** The service, continued: queries, history and stored recordings *)

(** The result object of a method whose body is a [try]: [TryThrown] is
    the [{success: false, error: error.message}] of its [catch] block, the
    message being that of the exception. *)
Inductive TryResult (A : Type) : Type :=
  | TryOk (a : A)
  | TryErr (error : string)
  | TryThrown.
Arguments TryOk {A} a.
Arguments TryErr {A} error.
Arguments TryThrown {A}.

(** [call.participants.includes(userId) || call.initiatorId === userId] *)
Definition belongsTo (userId : JsId) (call : Call) : Prop :=
  userId ∈ participants call ∨ initiatorId call = userId.

Global Instance belongsTo_dec (userId : JsId) (call : Call) :
  Decision (belongsTo userId call).
Proof. unfold belongsTo. apply _. Defined.

(** The same test on a record of the history file. *)
Definition involves (userId : JsId) (c : CallHistory) : Prop :=
  userId ∈ h_participants c ∨ h_initiatorId c = userId.

Global Instance involves_dec (userId : JsId) (c : CallHistory) :
  Decision (involves userId c).
Proof. unfold involves. apply _. Defined.

(** [getActiveCalls()]: [Array.from(this.activeCalls.values())].  A [Map]
    enumerates in insertion order, which [activeCalls] does not record:
    [order] is the list of its keys in that order. *)
Definition getActiveCalls (order : list string) (s : Service) : list Call :=
  omap (λ k, activeCalls s !! k) order.

(** [getUserActiveCalls(userId)] *)
Definition getUserActiveCalls (order : list string) (userId : JsId)
    (s : Service) : list Call :=
  filter (belongsTo userId) (getActiveCalls order s).

(** [arr.slice(start)] for an integer [start]. *)
Definition jsSlice {A : Type} (start : Z) (l : list A) : list A :=
  if bool_decide (start < 0)
  then drop (Z.to_nat (Z.max (Z.of_nat (length l) + start) 0)) l
  else drop (Z.to_nat start) l.

(** [getCallHistory(userId, limit)] for an integer [limit]. *)
Definition getCallHistory (userId : JsId) (limit : Z) (s : Service)
    : TryResult (list CallHistory) :=
  match historyFile s with
  | NoFile => TryOk []
  | Json history =>
      TryOk (reverse (jsSlice (- limit) (filter (involves userId) history)))
  | Garbled => TryThrown
  end.

(** [history.find(c => c.id === callId)] and
    [history.findIndex(c => c.id === callId)], together. *)
Definition findRecord (callId : string) (history : list CallHistory)
    : option (nat * CallHistory) :=
  list_find (λ c, h_id c = callId) history.

(** [getCallRecording(callId)] *)
Definition getCallRecording (callId : string) (s : Service)
    : TryResult Recording :=
  match activeCalls s !! callId with
  | Some (mkCall _ _ _ _ _ _ _ _ _ (Some r) _ _) => TryOk r
  | _ =>
    match historyFile s with
    | NoFile => TryErr "Recording not found"
    | Json history =>
      match findRecord callId history with
      | Some (_, c) =>
        match h_recording c with
        | Some r => TryOk r
        | None => TryErr "Recording not found"
        end
      | None => TryErr "Recording not found"
      end
    | Garbled => TryThrown
    end
  end.

(** [history[callIndex].recording = null] *)
Definition clear_h_recording (c : CallHistory) : CallHistory :=
  mkCallHistory (h_id c) (h_initiatorId c) (h_participants c) (h_type c)
    (h_title c) (h_startTime c) (h_endTime c) (h_duration c) None
    (h_participantCount c) (h_status c).

(** [deleteRecording(callId)]: the file is unlinked when it exists, then
    the first record of the call in the history file loses its recording.
    The recording of a call that is still active is left on the call. *)
Definition deleteRecording (callId : string) (s : Service)
    : Service * TryResult unit :=
  match getCallRecording callId s with
  | TryOk r =>
    let s1 := set_recordingFiles (delete (r_path r) (recordingFiles s)) s in
    match historyFile s1 with
    | NoFile => (s1, TryOk tt)
    | Json history =>
      match findRecord callId history with
      | Some (i, c) =>
          (set_historyFile (Json (<[i := clear_h_recording c]> history)) s1,
           TryOk tt)
      | None => (s1, TryOk tt)
      end
    | Garbled => (s1, TryThrown)
    end
  | _ => (s, TryErr "Recording not found")
  end.

(** [getStatus()]: the two counters. *)
Definition getStatus (s : Service) : nat * nat :=
  (size (activeCalls s), size (userConnections s)).

(** ** The handler, continued *)

(** [socket.on('call:recording-chunk', ...)]: no look at who sends. *)
Definition on_call_recording_chunk (sock : Socket) (callId : string)
    (chunk : list Byte.byte) (s : Service) : Service * list Effect :=
  let '(s1, r) := saveRecordingChunk callId chunk s in
  match r with
  | Ok _ => (s1, [])
  | Err e => (s1, [Emit ToSender "call:error" (PError e)])
  end.

(** [data?.limit || 20] for an integer or absent [limit]. *)
Definition historyLimit (limit : option Z) : Z :=
  match limit with
  | Some n => if bool_decide (n = 0) then 20 else n
  | None => 20
  end.

(** [socket.on('calls:get-history', ...)]: the result sent back to the
    socket as 'calls:history'. *)
Definition on_calls_get_history (sock : Socket) (limit : option Z)
    (s : Service) : TryResult (list CallHistory) :=
  getCallHistory (sock_userId sock) (historyLimit limit) s.

(** The event of the 'disconnect' handler:
    [socket.to(call.id).emit('call:participant-left',
       {userId, userInfo, reason: 'disconnect'})]. *)
Inductive LeftNotice : Type :=
  | ParticipantLeft (room : string) (userId : JsId) (reason : string).

(** [socket.on('disconnect', ...)]: nothing for a falsy user id; else the
    user leaves each of its active calls, in the order of the list computed
    at the start.  [now id] is the time at which the leave of call [id]
    runs. *)
Definition on_disconnect (now : string → Z) (order : list string)
    (sock : Socket) (s : Service) : Service * list LeftNotice :=
  let userId := sock_userId sock in
  if truthyId (Some userId) then
    foldl
      (λ acc call,
         (fst (leaveCall (now (c_id call)) (c_id call) userId (fst acc)),
          snd acc ++ [ParticipantLeft (c_id call) userId "disconnect"]))
      (s, []) (getUserActiveCalls order userId s)
  else (s, []).

(** ** Vocabulary of the statements *)

(** The history read by [saveCallToHistory] before it pushes. *)
Definition readHistory (f : HistoryFile) : list CallHistory :=
  match f with
  | Json h => h
  | _ => []
  end.

(** A service with no call, no connection and no file. *)
Definition emptyService : Service := mkService ∅ ∅ "uploads/recordings" NoFile ∅.

(** The condition under which [joinCall] activates the call, read after the
    joiner's entry has been written. *)
Definition activates (u : JsId) (call : Call) : Prop :=
  status call = initiating
  ∧ ∀ p, p ∈ participants call →
         <[propKey u := connected]> (connectionStatus call) !! propKey p
         = Some connected.

(** The call of the running example: initiator A, participants B and C. *)
Definition abcService : Service :=
  fst (initiateCall 0 "call_1" (IdStr "A") [IdStr "B"; IdStr "C"] "audio" None
         emptyService).

(** A join or a leave request on one call. *)
Inductive Op : Type :=
  | Join (now : Z) (u : JsId) (sock : string)
  | Leave (now : Z) (u : JsId).

Definition opUser (o : Op) : JsId :=
  match o with
  | Join _ u _ => u
  | Leave _ u => u
  end.

Definition step (callId : string) (o : Op) (s : Service)
    : Service * Result (Call * nat) :=
  match o with
  | Join now u sock => joinCall now callId u sock s
  | Leave now u => leaveCall now callId u s
  end.

(** Runs the requests in order; the second component follows the call
    object, which is the one last returned by a successful request. *)
Fixpoint run (callId : string) (ops : list Op) (s : Service) (call : Call)
    : Service * Call :=
  match ops with
  | [] => (s, call)
  | o :: rest =>
    let '(s', r) := step callId o s in
    run callId rest s' (match r with Ok (c, _) => c | Err _ => call end)
  end.

(** The call is being recorded. *)
Definition isRecording (call : Call) : Prop :=
  ∃ r, recording call = Some r ∧ r_status r = rec_recording.

(** The chunks of a list of 'call:recording-chunk' events, each with the
    socket that sent it, handled in order. *)
Definition sendChunks (callId : string)
    (chunks : list (Socket * list Byte.byte)) (s : Service) : Service :=
  foldl (λ acc x, fst (on_call_recording_chunk (fst x) callId (snd x) acc))
    s chunks.

Definition chunkBytes (chunks : list (Socket * list Byte.byte)) : N :=
  foldr (λ x n, (N.of_nat (length (snd x)) + n)%N) 0%N chunks.

(** Every call of the registry is stored under its own id and has not
    ended. *)
Definition registryOk (s : Service) : Prop :=
  ∀ k c, activeCalls s !! k = Some c → c_id c = k ∧ status c ≠ ended.

(** The order of the three states. *)
Definition statusRank (st : CallStatus) : nat :=
  match st with
  | initiating => 0
  | active => 1
  | ended => 2
  end.

(** The call object followed by [run] is the one stored under [callId], or
    the call is no longer there. *)
Definition followed (callId : string) (s : Service) (call : Call) : Prop :=
  activeCalls s !! callId = Some call ∨ activeCalls s !! callId = None.

(** A 'webrtc:signal' event as it reaches the handler. *)
Record SignalEvent : Type := mkSignalEvent {
  sg_now : Z;
  sg_sock : Socket;
  sg_type : string;
  sg_target : option JsId;
  sg_payload : string
}.

(** The events handled in order, with all that is emitted. *)
Definition sendSignals (callId : string) (sigs : list SignalEvent)
    (s : Service) : Service * list Effect :=
  foldl
    (λ acc e,
       (fst (on_webrtc_signal (sg_now e) (sg_sock e) callId (sg_type e)
               (sg_target e) (sg_payload e) (fst acc)),
        snd acc
        ++ snd (on_webrtc_signal (sg_now e) (sg_sock e) callId (sg_type e)
                  (sg_target e) (sg_payload e) (fst acc))))
    (s, []) sigs.

Definition signalMessage (e : SignalEvent) : Message :=
  mkMessage (sg_type e) (sock_userId (sg_sock e)) (sg_payload e) (sg_now e).

Definition signalRelay (callId : string) (e : SignalEvent) : Effect :=
  Emit (ToRoomExceptSender (relayRoom callId (sg_target e))) "webrtc:signal"
    (PSignal callId (sg_type e) (sock_userId (sg_sock e)) (sg_payload e)).

(** [order] lists the keys of [activeCalls], each once. *)
Definition keyOrder (order : list string) (s : Service) : Prop :=
  NoDup order ∧ ∀ k, k ∈ order ↔ is_Some (activeCalls s !! k).


(** * Properties *)

(** ** Shared facts about the helpers *)

Lemma foldl_pending_lookup (ps : list JsId) (acc : gmap string ConnStatus)
    (k : string) :
  foldl (λ cs p, <[propKey p := pending]> cs) acc ps !! k
  = if decide (k ∈ propKey <$> ps) then Some pending else acc !! k.
Proof.
  revert acc. induction ps as [|p ps IH]; intros acc.
  - rewrite decide_False; [done|]. apply not_elem_of_nil.
  - change (foldl (λ cs q, <[propKey q := pending]> cs)
              (<[propKey p := pending]> acc) ps !! k
            = if decide (k ∈ propKey p :: (propKey <$> ps))
              then Some pending else acc !! k).
    rewrite IH. destruct (decide (k ∈ propKey <$> ps)) as [Hin|Hnin].
    + rewrite decide_True; [done|]. apply elem_of_cons; by right.
    + destruct (decide (k = propKey p)) as [->|Hne].
      * rewrite lookup_insert_eq, decide_True; [done|]. apply elem_of_cons; by left.
      * rewrite lookup_insert_ne by done.
        rewrite decide_False; [done|]. by intros [?|?]%elem_of_cons.
Qed.

Lemma initConnectionStatus_lookup (ps : list JsId) (k : string) :
  initConnectionStatus ps !! k
  = if decide (k ∈ propKey <$> ps) then Some pending else None.
Proof. unfold initConnectionStatus. by rewrite foldl_pending_lookup. Qed.

Lemma initConnectionStatus_dom (ps : list JsId) :
  dom (initConnectionStatus ps) = list_to_set (propKey <$> ps).
Proof.
  apply set_eq. intros k.
  rewrite elem_of_dom, initConnectionStatus_lookup, elem_of_list_to_set.
  destruct (decide (k ∈ propKey <$> ps)) as [Hin|Hnin].
  - split; [done|]. intros _. by eexists.
  - split; [by intros []|done].
Qed.

Lemma clearConnections_lookup (ps : list JsId) (m : gmap JsId string)
    (u : JsId) :
  clearConnections ps m !! u = if decide (u ∈ ps) then None else m !! u.
Proof.
  unfold clearConnections. revert m.
  induction ps as [|p ps IH]; intros m.
  - rewrite decide_False; [done|]. apply not_elem_of_nil.
  - change (foldl (λ m0 q, delete q m0) (delete p m) ps !! u
            = if decide (u ∈ p :: ps) then None else m !! u).
    rewrite IH. destruct (decide (u ∈ ps)) as [Hin|Hnin].
    + rewrite decide_True; [done|]. apply elem_of_cons; by right.
    + destruct (decide (u = p)) as [->|Hne].
      * rewrite lookup_delete_eq, decide_True; [done|]. apply elem_of_cons; by left.
      * rewrite lookup_delete_ne by done.
        rewrite decide_False; [done|]. by intros [?|?]%elem_of_cons.
Qed.

Lemma pushCapped_suffix (h : list CallHistory) (r : CallHistory) :
  ∃ k, pushCapped h r = drop k h ++ [r].
Proof.
  unfold pushCapped. case_bool_decide as Hlen.
  - rewrite length_app in *. simpl in *.
    exists (length h + 1 - 100)%nat.
    rewrite drop_app_le by lia. done.
  - by exists 0%nat.
Qed.

Lemma pushCapped_length (h : list CallHistory) (r : CallHistory) :
  length (pushCapped h r) = ((length h + 1) `min` 100)%nat.
Proof.
  unfold pushCapped. case_bool_decide as Hlen;
    rewrite ?length_drop, !length_app in *; simpl in *; lia.
Qed.

(** ** Creation *)

(** C1, as the code has it: [initiateCall] always returns a call in status
    [initiating], stored under its id, whose [connectionStatus] has exactly
    the property keys of the identities listed in [participants], each
    [pending].  The initiator has an entry only when its key is the key of a
    listed participant. *)
Theorem initiateCall_pending_participants (now : Z) (callId : string)
    (initiator : JsId) (ps : list JsId) (type : string) (ttl : option string)
    (s : Service) :
  ∃ call,
    initiateCall now callId initiator ps type ttl s
      = (set_activeCalls (<[callId := call]> (activeCalls s)) s, Ok call)
    ∧ status call = initiating
    ∧ initiatorId call = initiator
    ∧ participants call = ps
    ∧ (∀ p, p ∈ ps → connectionStatus call !! propKey p = Some pending)
    ∧ dom (connectionStatus call) = list_to_set (propKey <$> ps)
    ∧ (is_Some (connectionStatus call !! propKey initiator)
       ↔ propKey initiator ∈ propKey <$> ps).
Proof.
  eexists. split; [reflexivity|]. simpl.
  repeat split; try done.
  - intros p Hp. rewrite initConnectionStatus_lookup.
    rewrite decide_True; [done|]. by apply list_elem_of_fmap_2.
  - apply initConnectionStatus_dom.
  - rewrite initConnectionStatus_lookup. case_decide; [done|by intros []].
  - intros H. rewrite initConnectionStatus_lookup. by rewrite decide_True.
Qed.

(** C1 fails as stated: initiator A with participants B and C gets the
    status map {B: pending, C: pending}, in which A has no entry. *)
Lemma initiateCall_initiator_has_no_entry :
  ∃ call,
    snd (initiateCall 0 "call_1" (IdStr "A") [IdStr "B"; IdStr "C"] "audio"
           None emptyService) = Ok call
    ∧ status call = initiating
    ∧ connectionStatus call !! propKey (IdStr "B") = Some pending
    ∧ connectionStatus call !! propKey (IdStr "C") = Some pending
    ∧ connectionStatus call !! propKey (IdStr "A") = None
    ∧ connectionStatus call !! propKey (IdStr "A") ≠ Some pending.
Proof. eexists. split; [reflexivity|]. by vm_compute. Qed.

(** C8, as the code has it: [initiateCall] has no failure result.  For any
    participants list, the empty one included, and any type string, it
    returns success and the new call is in [activeCalls] under its id, with
    the participants and type it was given. *)
Theorem initiateCall_never_rejects (now : Z) (callId : string)
    (initiator : JsId) (ps : list JsId) (type : string) (ttl : option string)
    (s : Service) :
  ∃ call,
    snd (initiateCall now callId initiator ps type ttl s) = Ok call
    ∧ activeCalls (fst (initiateCall now callId initiator ps type ttl s))
        !! callId = Some call
    ∧ participants call = ps
    ∧ c_type call = type
    ∧ status call = initiating.
Proof.
  eexists. split; [reflexivity|]. simpl.
  by rewrite lookup_insert_eq.
Qed.

(** C8 fails as stated: an empty participants list with a type outside
    audio, video and screen_share is accepted, by the service and through
    the handler, and the call is inserted. *)
Lemma initiateCall_accepts_empty_and_unknown_type :
  (∃ call,
     snd (initiateCall 0 "call_1" (IdStr "A") [] "hologram" None emptyService)
       = Ok call
     ∧ activeCalls (fst (initiateCall 0 "call_1" (IdStr "A") [] "hologram"
                           None emptyService)) !! "call_1" = Some call
     ∧ participants call = [] ∧ c_type call = "hologram")
  ∧ (∃ call,
       activeCalls
         (fst (on_call_initiate 0 (mkSocket (IdStr "A") "sock_a") "call_1" []
                 (Some "hologram") None emptyService)) !! "call_1" = Some call
       ∧ snd (on_call_initiate 0 (mkSocket (IdStr "A") "sock_a") "call_1" []
                (Some "hologram") None emptyService)
         = [JoinRoom "call_1"; Emit ToSender "call:initiated" (PCall call)]
       ∧ participants call = [] ∧ c_type call = "hologram").
Proof.
  split.
  - eexists. split; [reflexivity|]. by vm_compute.
  - eexists. split; [vm_compute; reflexivity|]. by vm_compute.
Qed.

(** ** Joining *)

Lemma allConnected_true (ps : list JsId) (cs : gmap string ConnStatus) :
  allConnected ps cs = true
  ↔ ∀ p, p ∈ ps → cs !! propKey p = Some connected.
Proof.
  unfold allConnected. induction ps as [|q ps IH].
  - split; [|done]. intros _ p Hp. by apply elem_of_nil in Hp.
  - cbn [forallb]. rewrite andb_true_iff, bool_decide_eq_true, IH. split.
    + intros [Hq Hps] p [->|Hp]%elem_of_cons; auto.
    + intros H. split; [|intros p Hp]; apply H; apply elem_of_cons; auto.
Qed.

Lemma invited_check (u : JsId) (call : Call) :
  u ∈ participants call ∨ initiatorId call = u →
  negb (includes u (participants call)) && bool_decide (initiatorId call ≠ u)
  = false.
Proof.
  intros [Hin| ->]; unfold includes.
  - by rewrite bool_decide_true.
  - rewrite (bool_decide_false (_ ≠ _)) by (intros H; by apply H).
    apply andb_false_r.
Qed.

Lemma uninvited_check (u : JsId) (call : Call) :
  u ∉ participants call → initiatorId call ≠ u →
  negb (includes u (participants call)) && bool_decide (initiatorId call ≠ u)
  = true.
Proof.
  intros Hnin Hne. unfold includes.
  by rewrite bool_decide_false, bool_decide_true.
Qed.

Lemma activates_test (u : JsId) (call : Call) :
  allConnected (participants call)
    (<[propKey u := connected]> (connectionStatus call))
  && bool_decide (status call = initiating) = true
  ↔ activates u call.
Proof.
  unfold activates.
  rewrite andb_true_iff, bool_decide_eq_true, allConnected_true. tauto.
Qed.

(** C2, as the code has it: a join by an invited identity writes
    [connected] under the identity's key, and the call goes from
    [initiating] to [active], with [startTime] stamped, exactly when after
    that write every identity listed in [participants] is [connected].
    Entries of other keys, the initiator's among them, are not consulted. *)
Theorem joinCall_activates_on_participants (now : Z) (callId : string)
    (u : JsId) (sock : string) (s : Service) (call : Call) :
  activeCalls s !! callId = Some call →
  u ∈ participants call ∨ initiatorId call = u →
  ∃ call',
    joinCall now callId u sock s
      = (set_userConnections (<[u := sock]> (userConnections s))
           (set_activeCalls (<[callId := call']> (activeCalls s)) s),
         Ok (call', connectedCount (connectionStatus call')))
    ∧ connectionStatus call'
      = <[propKey u := connected]> (connectionStatus call)
    ∧ connectionStatus call' !! propKey u = Some connected
    ∧ participants call' = participants call
    ∧ initiatorId call' = initiatorId call
    ∧ (activates u call → status call' = active ∧ startTime call' = now)
    ∧ (¬ activates u call →
       status call' = status call ∧ startTime call' = startTime call)
    ∧ ((status call = initiating ∧ status call' = active) ↔ activates u call).
Proof.
  intros Hlive Hinv. unfold joinCall. rewrite Hlive, invited_check by done.
  cbn [participants set_connectionStatus status].
  destruct (allConnected (participants call)
              (<[propKey u := connected]> (connectionStatus call))
            && bool_decide (status call = initiating)) eqn:Htest.
  - apply activates_test in Htest as Hact. destruct (Hact) as [Hst Hall].
    eexists. split; [reflexivity|]. cbn.
    rewrite lookup_insert_eq. by split_and!.
  - assert (¬ activates u call) as Hact.
    { intros Hact%activates_test. congruence. }
    eexists. split; [reflexivity|]. cbn.
    rewrite lookup_insert_eq. split_and!; try done.
    split; [|done]. intros [Hi Ha]. rewrite Hi in Ha. done.
Qed.

(** In the running example C joins after B: the call becomes active. *)
Lemma joinCall_activates_on_participants_witness :
  let s1 := fst (joinCall 1 "call_1" (IdStr "B") "sock_b" abcService) in
  ∃ call call',
    activeCalls s1 !! "call_1" = Some call
    ∧ IdStr "C" ∈ participants call
    ∧ snd (joinCall 2 "call_1" (IdStr "C") "sock_c" s1)
      = Ok (call', connectedCount (connectionStatus call'))
    ∧ connectionStatus call' !! propKey (IdStr "C") = Some connected
    ∧ status call' = active ∧ startTime call' = 2.
Proof.
  cbv zeta.
  assert (activeCalls (fst (joinCall 1 "call_1" (IdStr "B") "sock_b" abcService))
            !! "call_1"
          = Some (mkCall "call_1" (IdStr "A") [IdStr "B"; IdStr "C"] "audio"
                    "Call" initiating 0 None 0 None []
                    (<[ "B" := connected ]>
                       (initConnectionStatus [IdStr "B"; IdStr "C"]))))
    as Hlive.
  { vm_compute. reflexivity. }
  assert (IdStr "C" ∈ [IdStr "B"; IdStr "C"]) as Hin.
  { apply elem_of_cons. right. apply elem_of_cons. by left. }
  destruct (joinCall_activates_on_participants 2 "call_1" (IdStr "C") "sock_c"
              _ _ Hlive (or_introl Hin))
    as (call' & Hjoin & _ & Hc & _ & _ & Hact & _).
  eexists _, call'. split; [exact Hlive|]. split; [exact Hin|].
  split; [by rewrite Hjoin|]. split; [exact Hc|].
  apply Hact. split; [done|]. apply allConnected_true. by vm_compute.
Defined.

(** An uninvited identity is turned away and nothing is written. *)
Lemma joinCall_not_invited (now : Z) (callId : string) (u : JsId)
    (sock : string) (s : Service) (call : Call) :
  activeCalls s !! callId = Some call →
  u ∉ participants call → initiatorId call ≠ u →
  joinCall now callId u sock s = (s, Err "User not invited to this call").
Proof.
  intros Hlive Hnin Hne. unfold joinCall.
  by rewrite Hlive, uninvited_check.
Qed.

Lemma joinCall_not_found (now : Z) (callId : string) (u : JsId)
    (sock : string) (s : Service) :
  activeCalls s !! callId = None →
  joinCall now callId u sock s = (s, Err "Call not found").
Proof. intros H. unfold joinCall. by rewrite H. Qed.

(** The two outcomes of [joinCall] on a live call. *)
Lemma joinCall_cases (now : Z) (callId : string) (u : JsId) (sock : string)
    (s : Service) (call : Call) :
  activeCalls s !! callId = Some call →
  joinCall now callId u sock s = (s, Err "User not invited to this call")
  ∨ ∃ call',
      snd (joinCall now callId u sock s)
        = Ok (call', connectedCount (connectionStatus call'))
      ∧ connectionStatus call'
        = <[propKey u := connected]> (connectionStatus call)
      ∧ activeCalls (fst (joinCall now callId u sock s)) !! callId
        = Some call'.
Proof.
  intros Hlive. unfold joinCall. rewrite Hlive.
  destruct (negb (includes u (participants call))
            && bool_decide (initiatorId call ≠ u)); [by left|right].
  cbn [participants set_connectionStatus status].
  destruct (allConnected (participants call)
              (<[propKey u := connected]> (connectionStatus call))
            && bool_decide (status call = initiating)).
  - eexists. split; [reflexivity|]. cbn. split; [done|apply lookup_insert_eq].
  - eexists. split; [reflexivity|]. cbn. split; [done|apply lookup_insert_eq].
Qed.

(** C2 fails as stated.  First run: B and C join and the call becomes
    active on C's join although the initiator A has not joined (two joins,
    not three).  Second run: B and A join, A leaves, C joins; the call
    becomes active on C's join while the entry of A is [disconnected]. *)
Lemma joinCall_active_without_initiator :
  (let s1 := fst (joinCall 1 "call_1" (IdStr "B") "sock_b" abcService) in
   let s2 := fst (joinCall 2 "call_1" (IdStr "C") "sock_c" s1) in
   status <$> activeCalls s1 !! "call_1" = Some initiating
   ∧ ∃ call, activeCalls s2 !! "call_1" = Some call
       ∧ status call = active ∧ startTime call = 2
       ∧ connectionStatus call !! propKey (IdStr "A") = None)
  ∧ (let s1 := fst (joinCall 1 "call_1" (IdStr "B") "sock_b" abcService) in
     let s2 := fst (joinCall 2 "call_1" (IdStr "A") "sock_a" s1) in
     let s3 := fst (leaveCall 3 "call_1" (IdStr "A") s2) in
     let s4 := fst (joinCall 4 "call_1" (IdStr "C") "sock_c" s3) in
     status <$> activeCalls s3 !! "call_1" = Some initiating
     ∧ ∃ call, activeCalls s4 !! "call_1" = Some call
         ∧ status call = active ∧ startTime call = 4
         ∧ connectionStatus call !! propKey (IdStr "A") = Some disconnected).
Proof.
  split; cbv zeta.
  - split; [by vm_compute|].
    eexists. split; [vm_compute; reflexivity|]. by vm_compute.
  - split; [by vm_compute|].
    eexists. split; [vm_compute; reflexivity|]. by vm_compute.
Qed.

(** ** Ending *)

(** What [endCall] does to a live call, field by field. *)
Lemma endCall_live (now : Z) (callId : string) (s : Service) (call : Call) :
  activeCalls s !! callId = Some call →
  ∃ call',
    endCall now callId s
      = (set_userConnections
           (clearConnections (participants call) (userConnections s))
           (set_activeCalls (delete callId (activeCalls s))
              (fst (saveCallToHistory call' s))),
         Ok call')
    ∧ status call' = ended
    ∧ endTime call' = Some now
    ∧ duration call' = now - startTime call
    ∧ startTime call' = startTime call
    ∧ recording call' = recording call
    ∧ connectionStatus call' = connectionStatus call
    ∧ participants call' = participants call
    ∧ initiatorId call' = initiatorId call
    ∧ c_id call' = c_id call.
Proof.
  intros Hlive. unfold endCall. rewrite Hlive.
  exists (set_duration (now - startTime call)
            (set_endTime (Some now) (set_status ended call))).
  split; [|by split_and!].
  unfold saveCallToHistory. by destruct (historyFile s).
Qed.

Lemma endCall_not_found (now : Z) (callId : string) (s : Service) :
  activeCalls s !! callId = None →
  endCall now callId s = (s, Err "Call not found").
Proof. intros H. unfold endCall. by rewrite H. Qed.

Lemma saveCallToHistory_fields (call : Call) (s : Service) :
  activeCalls (fst (saveCallToHistory call s)) = activeCalls s
  ∧ userConnections (fst (saveCallToHistory call s)) = userConnections s
  ∧ recordingsPath (fst (saveCallToHistory call s)) = recordingsPath s
  ∧ recordingFiles (fst (saveCallToHistory call s)) = recordingFiles s.
Proof. unfold saveCallToHistory. by destruct (historyFile s). Qed.

Lemma saveCallToHistory_file (call : Call) (s : Service) :
  historyFile s ≠ Garbled →
  historyFile (fst (saveCallToHistory call s))
  = Json (pushCapped (readHistory (historyFile s)) (toHistory call)).
Proof. unfold saveCallToHistory. by destruct (historyFile s). Qed.

Lemma endCall_removes (now : Z) (callId : string) (s : Service) (d : string) :
  activeCalls (fst (endCall now callId s)) !! d
  = if decide (d = callId) then None else activeCalls s !! d.
Proof.
  unfold endCall. destruct (activeCalls s !! callId) as [call|] eqn:Hlive.
  - cbn. destruct (saveCallToHistory_fields
                     (set_duration (now - startTime call)
                        (set_endTime (Some now) (set_status ended call))) s)
      as (-> & _).
    case_decide as Hd.
    + subst. apply lookup_delete_eq.
    + by rewrite lookup_delete_ne.
  - cbn. case_decide; [by subst|done].
Qed.

(** C4: ending a live call twice.  The first [endCall] ends the call and
    removes it from [activeCalls]; the second finds no call, returns
    "Call not found" and leaves the whole service state, history file
    included, as the first left it (so does a second 'call:end' request).
    With a readable history file the two invocations together push exactly
    one record, the last of the file; older records are kept in order or
    dropped from the front by the cap of 100. *)
Theorem endCall_idempotent (now1 now2 : Z) (sock : Socket) (callId : string)
    (s : Service) (call : Call) :
  activeCalls s !! callId = Some call →
  ∃ call' s1,
    endCall now1 callId s = (s1, Ok call')
    ∧ status call' = ended
    ∧ c_id call' = c_id call
    ∧ activeCalls s1 !! callId = None
    ∧ endCall now2 callId s1 = (s1, Err "Call not found")
    ∧ on_call_end now2 sock callId s1
      = (s1, [Emit ToSender "call:error" (PError "Call not found")])
    ∧ (historyFile s ≠ Garbled →
       historyFile (fst (endCall now2 callId s1))
       = Json (pushCapped (readHistory (historyFile s)) (toHistory call'))
       ∧ ∃ k, pushCapped (readHistory (historyFile s)) (toHistory call')
              = drop k (readHistory (historyFile s)) ++ [toHistory call'])
    ∧ (historyFile s = Garbled →
       historyFile (fst (endCall now2 callId s1)) = Garbled).
Proof.
  intros Hlive.
  destruct (endCall_live now1 callId s call Hlive)
    as (call' & Hend & Hst & _ & _ & _ & _ & _ & _ & _ & Hid).
  pose proof (endCall_removes now1 callId s callId) as Hgone.
  rewrite decide_True in Hgone by done.
  rewrite Hend in Hgone. cbn [fst] in Hgone.
  eexists call', _. split; [exact Hend|].
  rewrite (endCall_not_found now2 callId _ Hgone).
  split_and!; try done.
  - unfold on_call_end, getActiveCall. by rewrite Hgone.
  - intros Hok. cbn. split.
    + by apply saveCallToHistory_file.
    + apply pushCapped_suffix.
  - intros Hbad. cbn. unfold saveCallToHistory. by rewrite Hbad.
Qed.

(** The running example ended at time 5 and again at time 6. *)
Lemma endCall_idempotent_witness :
  ∃ s1,
    fst (endCall 5 "call_1" abcService) = s1
    ∧ endCall 6 "call_1" s1 = (s1, Err "Call not found")
    ∧ ∃ h, historyFile s1 = Json [h] ∧ h_id h = "call_1" ∧ h_status h = ended.
Proof.
  destruct (endCall_idempotent 5 6 (mkSocket (IdStr "A") "sock_a") "call_1"
              abcService
              (mkCall "call_1" (IdStr "A") [IdStr "B"; IdStr "C"] "audio"
                 "Call" initiating 0 None 0 None []
                 (initConnectionStatus [IdStr "B"; IdStr "C"])))
    as (call' & s1 & Hend & _ & _ & _ & Hsecond & _).
  - vm_compute. reflexivity.
  - exists s1. split; [by rewrite Hend|]. split; [exact Hsecond|].
    vm_compute in Hend. injection Hend as <- <-.
    eexists. split; [vm_compute; reflexivity|]. by vm_compute.
Defined.

(** C5, as the code has it: [endCall] does not touch [call.recording].  The
    ended call and the history record built from it carry the recording
    exactly as it was, so a recording in status [recording] reaches the
    history in status [recording]. *)
Theorem endCall_keeps_recording (now : Z) (callId : string) (s : Service)
    (call : Call) :
  activeCalls s !! callId = Some call →
  ∃ call' s1,
    endCall now callId s = (s1, Ok call')
    ∧ recording call' = recording call
    ∧ h_recording (toHistory call') = recording call
    ∧ (historyFile s ≠ Garbled →
       ∃ k, historyFile s1
            = Json (drop k (readHistory (historyFile s)) ++ [toHistory call']))
    ∧ (∀ r, recording call = Some r → r_status r = rec_recording →
            r_status <$> h_recording (toHistory call') = Some rec_recording).
Proof.
  intros Hlive.
  destruct (endCall_live now callId s call Hlive)
    as (call' & Hend & _ & _ & _ & _ & Hrec & _).
  eexists call', _. split; [exact Hend|]. split_and!; try done.
  - intros Hok. cbn. rewrite saveCallToHistory_file by done.
    destruct (pushCapped_suffix (readHistory (historyFile s)) (toHistory call'))
      as [k ->].
    by exists k.
  - intros r Hr Hs. cbn. by rewrite Hrec, Hr, <- Hs.
Qed.

(** The running example, recorded from time 1 and ended at time 2. *)
Lemma endCall_keeps_recording_witness :
  let s1 := fst (startRecording 1 "call_1" abcService) in
  ∃ call call',
    activeCalls s1 !! "call_1" = Some call
    ∧ snd (endCall 2 "call_1" s1) = Ok call'
    ∧ recording call' = recording call
    ∧ r_status <$> recording call' = Some rec_recording.
Proof.
  cbv zeta. eexists.
  assert (activeCalls (fst (startRecording 1 "call_1" abcService)) !! "call_1"
          = Some (mkCall "call_1" (IdStr "A") [IdStr "B"; IdStr "C"] "audio"
                    "Call" initiating 0 None 0
                    (Some (mkRecording "call_1_1"
                             "uploads/recordings/call_1_1.webm" rec_recording
                             1 None 0))
                    [] (initConnectionStatus [IdStr "B"; IdStr "C"]))) as Hlive.
  { vm_compute. reflexivity. }
  destruct (endCall_keeps_recording 2 "call_1" _ _ Hlive)
    as (call' & s2 & Hend & Hrec & _).
  exists call'. split; [exact Hlive|]. split; [by rewrite Hend|].
  split; [exact Hrec|]. by rewrite Hrec.
Defined.

(** C5 fails as stated: a call ended while it is being recorded is written
    to the history with its recording still in status [recording] and
    without an end time. *)
Lemma endCall_history_has_open_recording :
  let s1 := fst (startRecording 1 "call_1" abcService) in
  let s2 := fst (endCall 2 "call_1" s1) in
  ∃ h r,
    historyFile s2 = Json [h]
    ∧ h_id h = "call_1" ∧ h_status h = ended
    ∧ h_recording h = Some r
    ∧ r_status r = rec_recording ∧ r_endTime r = None.
Proof.
  cbv zeta. eexists _, _. split; [vm_compute; reflexivity|]. by vm_compute.
Qed.

(** C10: [endCall] deletes from the service-wide [userConnections] the
    entry of every identity listed in the ended call's [participants],
    whichever call's join created it, and leaves every other live call in
    [activeCalls]. *)
Theorem endCall_clears_shared_connections (now : Z) (callId : string)
    (s : Service) (call : Call) :
  activeCalls s !! callId = Some call →
  (∀ p, p ∈ participants call →
        userConnections (fst (endCall now callId s)) !! p = None)
  ∧ (∀ u, u ∉ participants call →
          userConnections (fst (endCall now callId s)) !! u
          = userConnections s !! u)
  ∧ (∀ d, d ≠ callId →
          activeCalls (fst (endCall now callId s)) !! d = activeCalls s !! d).
Proof.
  intros Hlive.
  destruct (endCall_live now callId s call Hlive) as (call' & Hend & _).
  split_and!.
  - intros p Hp. rewrite Hend. cbn.
    by rewrite clearConnections_lookup, decide_True.
  - intros u Hu. rewrite Hend. cbn.
    by rewrite clearConnections_lookup, decide_False.
  - intros d Hd. by rewrite endCall_removes, decide_False.
Qed.

(** B is listed in call_1 and in call_2, and joins call_2 only; ending
    call_1 removes the connection B registered for call_2, which stays
    live. *)
Lemma endCall_clears_shared_connections_witness :
  let s1 := fst (initiateCall 1 "call_2" (IdStr "D") [IdStr "B"] "video" None
                   abcService) in
  let s2 := fst (joinCall 2 "call_2" (IdStr "B") "sock_b" s1) in
  let s3 := fst (endCall 3 "call_1" s2) in
  userConnections s2 !! IdStr "B" = Some "sock_b"
  ∧ userConnections s3 !! IdStr "B" = None
  ∧ ∃ call, activeCalls s3 !! "call_2" = Some call
      ∧ status call = active
      ∧ connectionStatus call !! propKey (IdStr "B") = Some connected.
Proof.
  cbv zeta. split; [vm_compute; reflexivity|].
  destruct (endCall_clears_shared_connections 3 "call_1"
              (fst (joinCall 2 "call_2" (IdStr "B") "sock_b"
                      (fst (initiateCall 1 "call_2" (IdStr "D") [IdStr "B"]
                              "video" None abcService))))
              (mkCall "call_1" (IdStr "A") [IdStr "B"; IdStr "C"] "audio"
                 "Call" initiating 0 None 0 None []
                 (initConnectionStatus [IdStr "B"; IdStr "C"])))
    as (Hcleared & _ & Hothers).
  - vm_compute. reflexivity.
  - split.
    + apply Hcleared. cbn. apply elem_of_cons. by left.
    + rewrite Hothers by done. eexists. split; [vm_compute; reflexivity|].
      by vm_compute.
Defined.

(** ** Leaving *)

Lemma elem_of_connectedUsers (cs : gmap string ConnStatus) (k : string) :
  k ∈ connectedUsers cs ↔ cs !! k = Some connected.
Proof.
  unfold connectedUsers. rewrite list_elem_of_fmap. split.
  - intros ([k' v] & -> & [Hv Hin]%list_elem_of_filter).
    cbn in *. subst v. by apply elem_of_map_to_list.
  - intros Hk. exists (k, connected). split; [done|].
    apply list_elem_of_filter. split; [done|]. by apply elem_of_map_to_list.
Qed.

Lemma NoDup_connectedUsers (cs : gmap string ConnStatus) :
  NoDup (connectedUsers cs).
Proof.
  unfold connectedUsers.
  eapply sublist_NoDup; [apply (NoDup_fst_map_to_list cs)|].
  apply fmap_sublist, sublist_filter.
Qed.

Lemma connectedUsers_nil (cs : gmap string ConnStatus) :
  connectedUsers cs = [] ↔ ∀ k, cs !! k ≠ Some connected.
Proof.
  split.
  - intros Hnil k Hk. apply elem_of_connectedUsers in Hk.
    rewrite Hnil in Hk. by apply elem_of_nil in Hk.
  - intros Hnone. apply elem_of_nil_inv. intros k Hk.
    apply elem_of_connectedUsers in Hk. by apply (Hnone k).
Qed.

Lemma connectedUsers_singleton (cs : gmap string ConnStatus) (k : string) :
  connectedUsers cs = [k] ↔ ∀ k', cs !! k' = Some connected ↔ k' = k.
Proof.
  split.
  - intros Hone k'. rewrite <- elem_of_connectedUsers, Hone.
    apply list_elem_of_singleton.
  - intros Honly. pose proof (NoDup_connectedUsers cs) as Hnd.
    assert (∀ k', k' ∈ connectedUsers cs ↔ k' = k) as Hmem.
    { intros k'. by rewrite elem_of_connectedUsers. }
    destruct (connectedUsers cs) as [|a [|b l]].
    + exfalso. apply (not_elem_of_nil k). by apply Hmem.
    + f_equal. apply Hmem, elem_of_cons. by left.
    + exfalso. apply NoDup_cons in Hnd as [Hab _].
      assert (a = k) as -> by (apply Hmem, elem_of_cons; by left).
      assert (b = k) as ->.
      { apply Hmem. apply elem_of_cons. right. apply elem_of_cons. by left. }
      apply Hab, elem_of_cons. by left.
Qed.

(** [shouldEnd] compares the one remaining property key, a string, with
    [call.initiatorId] by [===]: it holds for no numeric initiator id. *)
Lemma shouldEnd_true (users : list string) (initiator : JsId) :
  shouldEnd users initiator = true
  ↔ users = [] ∨ ∃ k, users = [k] ∧ initiator = IdStr k.
Proof.
  unfold shouldEnd.
  rewrite orb_true_iff, andb_true_iff, !bool_decide_eq_true. split.
  - intros [Hlen|[Hlen Hhd]].
    + left. by destruct users.
    + right. destruct users as [|k [|? ?]]; try done.
      exists k. split; [done|]. cbn in Hhd. congruence.
  - intros [->|(k & -> & ->)]; [by left|by right].
Qed.

Lemma shouldEnd_numeric (k : string) (n : Z) :
  shouldEnd [k] (IdNum n) = false.
Proof.
  apply not_true_is_false. intros [H|(k' & _ & H)]%shouldEnd_true; done.
Qed.

(** What [leaveCall] does to a live call. *)
Lemma leaveCall_live (now : Z) (callId : string) (u : JsId) (s : Service)
    (call : Call) :
  activeCalls s !! callId = Some call →
  ∃ call' s',
    leaveCall now callId u s
      = (s', Ok (call',
                 length (connectedUsers
                           (<[propKey u := disconnected]> (connectionStatus call)))))
    ∧ connectionStatus call'
      = <[propKey u := disconnected]> (connectionStatus call)
    ∧ participants call' = participants call
    ∧ initiatorId call' = initiatorId call
    ∧ (shouldEnd (connectedUsers (connectionStatus call')) (initiatorId call)
       = true →
       status call' = ended ∧ activeCalls s' !! callId = None)
    ∧ (shouldEnd (connectedUsers (connectionStatus call')) (initiatorId call)
       = false →
       status call' = status call ∧ activeCalls s' !! callId = Some call').
Proof.
  intros Hlive. unfold leaveCall. rewrite Hlive.
  cbn [initiatorId set_connectionStatus].
  set (cs := <[propKey u := disconnected]> (connectionStatus call)).
  set (call1 := set_connectionStatus cs call).
  set (s2 := set_userConnections _ _).
  assert (activeCalls s2 !! callId = Some call1) as Hlive2.
  { subst s2. cbn. apply lookup_insert_eq. }
  destruct (shouldEnd (connectedUsers cs) (initiatorId call)) eqn:Hend.
  - destruct (endCall_live now callId s2 call1 Hlive2)
      as (call' & Hec & Hst & _ & _ & _ & _ & Hcs & Hps & Hini & _).
    pose proof (endCall_removes now callId s2 callId) as Hgone.
    rewrite decide_True in Hgone by done.
    rewrite Hec in *. cbn [fst] in Hgone.
    eexists call', _. split; [reflexivity|].
    rewrite Hcs. split_and!; try done.
    intros Hno. change (connectionStatus call1) with cs in Hno. congruence.
  - eexists call1, s2. split; [reflexivity|]. cbn.
    fold cs. rewrite Hend. by split_and!.
Qed.

Lemma leaveCall_not_found (now : Z) (callId : string) (u : JsId)
    (s : Service) :
  activeCalls s !! callId = None →
  leaveCall now callId u s = (s, Err "Call not found").
Proof. intros H. unfold leaveCall. by rewrite H. Qed.

(** When the last write leaves the call live or not: [leaveCall] ends the
    call exactly when no entry is [connected], or the entry of the
    initiator is the only [connected] one and the initiator's id is the
    string that is its property key. *)
Lemma leaveCall_ends_iff (now : Z) (callId : string) (u : JsId) (s : Service)
    (call : Call) :
  activeCalls s !! callId = Some call →
  let cs := <[propKey u := disconnected]> (connectionStatus call) in
  activeCalls (fst (leaveCall now callId u s)) !! callId = None
  ↔ (∀ k, cs !! k ≠ Some connected)
    ∨ ∃ k, initiatorId call = IdStr k
           ∧ ∀ k', cs !! k' = Some connected ↔ k' = k.
Proof.
  intros Hlive cs.
  destruct (leaveCall_live now callId u s call Hlive)
    as (call' & s' & Hleave & Hcs & _ & _ & Hyes & Hno).
  rewrite Hleave. cbn [fst]. rewrite Hcs in Hyes, Hno. fold cs in Hyes, Hno.
  rewrite <- connectedUsers_nil.
  setoid_rewrite <- connectedUsers_singleton.
  destruct (shouldEnd (connectedUsers cs) (initiatorId call)) eqn:Hend.
  - split; [intros _|intros _; by apply Hyes].
    apply shouldEnd_true in Hend as [Hnil|(k & Hk & Hi)]; [by left|].
    right. by exists k.
  - destruct (Hno eq_refl) as [_ Hsome]. split; [congruence|].
    intros Hcase. exfalso.
    assert (shouldEnd (connectedUsers cs) (initiatorId call) = true)
      as Htrue; [|congruence].
    apply shouldEnd_true. destruct Hcase as [Hnil|(k & Hi & Hk)]; [by left|].
    right. by exists k.
Qed.

(** With a numeric initiator id the call ends on a leave only when nobody
    is left connected. *)
Lemma leaveCall_numeric_initiator (now : Z) (callId : string) (u : JsId)
    (s : Service) (call : Call) (n : Z) :
  activeCalls s !! callId = Some call →
  initiatorId call = IdNum n →
  activeCalls (fst (leaveCall now callId u s)) !! callId = None
  ↔ ∀ k, <[propKey u := disconnected]> (connectionStatus call) !! k
         ≠ Some connected.
Proof.
  intros Hlive Hnum. rewrite (leaveCall_ends_iff now callId u s call Hlive).
  split; [|by left]. intros [Hnone|(k & Hk & _)]; [done|congruence].
Qed.

(** C3 on the ids the backend issues: initiator 1 and participant 2 are
    both connected, then 2 leaves.  The initiator alone remains connected,
    [connectedUsers] is the one key "1", and the call is not ended: the
    key "1" is not [===] to the id 1. *)
Lemma leaveCall_numeric_initiator_stays_live :
  let s0 := fst (initiateCall 0 "call_1" (IdNum 1) [IdNum 2] "audio" None
                   emptyService) in
  let s1 := fst (joinCall 1 "call_1" (IdNum 1) "sock_1" s0) in
  let s2 := fst (joinCall 2 "call_1" (IdNum 2) "sock_2" s1) in
  let s3 := fst (leaveCall 3 "call_1" (IdNum 2) s2) in
  ∃ call,
    activeCalls s3 !! "call_1" = Some call
    ∧ connectionStatus call !! propKey (IdNum 2) = Some disconnected
    ∧ connectedUsers (connectionStatus call) = [propKey (initiatorId call)]
    ∧ initiatorId call = IdNum 1
    ∧ status call = active
    ∧ historyFile s3 = NoFile.
Proof.
  cbv zeta. eexists. split; [vm_compute; reflexivity|]. by vm_compute.
Qed.

(** The same run on string ids ends the call and writes the history. *)
Lemma leaveCall_string_initiator_ends :
  let s0 := fst (initiateCall 0 "call_1" (IdStr "A") [IdStr "B"] "audio" None
                   emptyService) in
  let s1 := fst (joinCall 1 "call_1" (IdStr "A") "sock_a" s0) in
  let s2 := fst (joinCall 2 "call_1" (IdStr "B") "sock_b" s1) in
  let s3 := fst (leaveCall 3 "call_1" (IdStr "B") s2) in
  activeCalls s3 !! "call_1" = None
  ∧ ∃ h, historyFile s3 = Json [h] ∧ h_status h = ended.
Proof.
  cbv zeta. split; [by vm_compute|].
  eexists. split; [vm_compute; reflexivity|]. by vm_compute.
Qed.

(** ** The key set of [connectionStatus] *)

(** One request: the call object is unchanged, or the requester's key was
    written into its [connectionStatus]; afterwards the call is live under
    [callId] as returned, or no longer in [activeCalls]. *)
Lemma step_keys (callId : string) (o : Op) (s : Service) (call : Call) :
  activeCalls s !! callId = Some call ∨ activeCalls s !! callId = None →
  ∃ s' r call',
    step callId o s = (s', r)
    ∧ call' = match r with Ok (c, _) => c | Err _ => call end
    ∧ (call' = call
       ∨ dom (connectionStatus call')
         = {[propKey (opUser o)]} ∪ dom (connectionStatus call))
    ∧ (activeCalls s' !! callId = Some call'
       ∨ activeCalls s' !! callId = None).
Proof.
  intros [Hlive|Hgone].
  - destruct o as [now u sock|now u]; cbn [step opUser].
    + destruct (joinCall_cases now callId u sock s call Hlive)
        as [->|(call' & Hres & Hcs & Hlive')].
      * eexists _, _, call. split; [reflexivity|]. by auto.
      * destruct (joinCall now callId u sock s) as [s' r]. cbn in Hres, Hlive'.
        subst r. eexists _, _, call'. split; [reflexivity|]. split; [done|].
        split; [right; by rewrite Hcs, dom_insert_L|by left].
    + destruct (leaveCall_live now callId u s call Hlive)
        as (call' & s' & -> & Hcs & _ & _ & Hyes & Hno).
      eexists _, _, call'. split; [reflexivity|]. split; [done|].
      split; [right; by rewrite Hcs, dom_insert_L|].
      destruct (shouldEnd (connectedUsers (connectionStatus call'))
                  (initiatorId call)).
      * right. by apply Hyes.
      * left. by apply Hno.
  - destruct o as [now u sock|now u]; cbn [step opUser].
    + rewrite joinCall_not_found by done.
      eexists _, _, call. split; [reflexivity|]. by auto.
    + rewrite leaveCall_not_found by done.
      eexists _, _, call. split; [reflexivity|]. by auto.
Qed.

Lemma run_keys (callId : string) (ops : list Op) :
  ∀ (s : Service) (call : Call),
    activeCalls s !! callId = Some call ∨ activeCalls s !! callId = None →
    dom (connectionStatus call)
      ⊆ dom (connectionStatus (snd (run callId ops s call)))
    ∧ dom (connectionStatus (snd (run callId ops s call)))
      ⊆ dom (connectionStatus call)
        ∪ list_to_set (propKey <$> (opUser <$> ops)).
Proof.
  induction ops as [|o rest IH]; intros s call Hinv.
  - cbn. split; [done|]. apply union_subseteq_l.
  - destruct (step_keys callId o s call Hinv)
      as (s' & r & call' & Hstep & Hcall & Hdom & Hinv').
    cbn [run]. rewrite Hstep, <- Hcall.
    destruct (IH s' call' Hinv') as [Hlow Hup].
    rewrite !fmap_cons, list_to_set_cons.
    destruct Hdom as [->|Hdom].
    + split; [done|]. intros k Hk. apply Hup in Hk.
      apply elem_of_union in Hk as [Hk|Hk]; set_unfold; tauto.
    + rewrite Hdom in Hlow, Hup. split.
      * intros k Hk. apply Hlow. set_unfold; tauto.
      * intros k Hk. apply Hup in Hk. set_unfold; tauto.
Qed.

(** C9, as the code has it: over any sequence of join and leave requests
    on a live call, no key of [connectionStatus] is ever removed, and the
    only keys added are keys of identities that made a request.  One
    successful join, or one leave by any identity, makes the key set the
    old one with the requester's key added. *)
Theorem connectionStatus_keys_only_grow (callId : string) (ops : list Op)
    (s : Service) (call : Call) :
  activeCalls s !! callId = Some call →
  dom (connectionStatus call)
    ⊆ dom (connectionStatus (snd (run callId ops s call)))
  ∧ dom (connectionStatus (snd (run callId ops s call)))
    ⊆ dom (connectionStatus call) ∪ list_to_set (propKey <$> (opUser <$> ops))
  ∧ (∀ now u sock call' n,
       snd (joinCall now callId u sock s) = Ok (call', n) →
       dom (connectionStatus call')
       = {[propKey u]} ∪ dom (connectionStatus call))
  ∧ (∀ now u call' n,
       snd (leaveCall now callId u s) = Ok (call', n) →
       dom (connectionStatus call')
       = {[propKey u]} ∪ dom (connectionStatus call)).
Proof.
  intros Hlive.
  destruct (run_keys callId ops s call (or_introl Hlive)) as [Hlow Hup].
  split_and!; try done.
  - intros now u sock call' n Hjoin.
    destruct (joinCall_cases now callId u sock s call Hlive)
      as [Heq|(c & Hres & Hcs & _)].
    + by rewrite Heq in Hjoin.
    + rewrite Hres in Hjoin. injection Hjoin as <- _.
      by rewrite Hcs, dom_insert_L.
  - intros now u call' n Hleave.
    destruct (leaveCall_live now callId u s call Hlive)
      as (c & s' & Heq & Hcs & _).
    rewrite Heq in Hleave. cbn in Hleave. injection Hleave as <- _.
    by rewrite Hcs, dom_insert_L.
Qed.

(** The running example under a join of A and a leave of Z. *)
Lemma connectionStatus_keys_only_grow_witness :
  ∃ call,
    activeCalls abcService !! "call_1" = Some call
    ∧ dom (connectionStatus call)
        ⊆ dom (connectionStatus
                 (snd (run "call_1"
                         [Join 1 (IdStr "A") "sock_a"; Leave 2 (IdStr "Z")]
                         abcService call))).
Proof.
  eexists. split; [vm_compute; reflexivity|].
  apply (connectionStatus_keys_only_grow "call_1"
           [Join 1 (IdStr "A") "sock_a"; Leave 2 (IdStr "Z")] abcService).
  vm_compute. reflexivity.
Defined.

Lemma dom_differs (k : string) (m0 m1 : gmap string ConnStatus) :
  m0 !! k = None → is_Some (m1 !! k) → dom m1 ≠ dom m0.
Proof.
  intros H0 H1 Heq. apply elem_of_dom in H1. rewrite Heq in H1.
  apply elem_of_dom in H1 as [v Hv]. congruence.
Qed.

(** C9 fails as stated: in the call of initiator A with participants B
    and C the keys at creation are B and C; the initiator's join adds the
    key A, and after B has joined a leave request of the uninvited Z adds
    the key Z, the call staying live. *)
Lemma connectionStatus_keys_change :
  let s1 := fst (joinCall 1 "call_1" (IdStr "A") "sock_a" abcService) in
  let s2 := fst (joinCall 2 "call_1" (IdStr "B") "sock_b" s1) in
  let s3 := fst (leaveCall 3 "call_1" (IdStr "Z") s2) in
  ∃ call0 call1 call3,
    activeCalls abcService !! "call_1" = Some call0
    ∧ activeCalls s1 !! "call_1" = Some call1
    ∧ activeCalls s3 !! "call_1" = Some call3
    ∧ connectionStatus call0 !! propKey (IdStr "A") = None
    ∧ connectionStatus call1 !! propKey (IdStr "A") = Some connected
    ∧ dom (connectionStatus call1) ≠ dom (connectionStatus call0)
    ∧ connectionStatus call0 !! propKey (IdStr "Z") = None
    ∧ connectionStatus call3 !! propKey (IdStr "Z") = Some disconnected
    ∧ dom (connectionStatus call3) ≠ dom (connectionStatus call0).
Proof.
  cbv zeta. eexists _, _, _.
  split; [vm_compute; reflexivity|].
  split; [vm_compute; reflexivity|].
  split; [vm_compute; reflexivity|].
  split_and!.
  - by vm_compute.
  - by vm_compute.
  - apply (dom_differs "A"); [by vm_compute|]. eexists. by vm_compute.
  - by vm_compute.
  - by vm_compute.
  - apply (dom_differs "Z"); [by vm_compute|]. eexists. by vm_compute.
Qed.

(** ** Requests of a non-initiator *)

(** C6: on a live call, a 'call:end', 'call:start-recording' or
    'call:stop-recording' request from a socket whose user is not the
    initiator is answered with the handler's "Only call initiator can ..."
    error alone, and the service state is returned as it was. *)
Theorem non_initiator_request_denied (now : Z) (sock : Socket)
    (callId : string) (s : Service) (call : Call) :
  activeCalls s !! callId = Some call →
  sock_userId sock ≠ initiatorId call →
  on_call_end now sock callId s
    = (s, [Emit ToSender "call:error"
             (PError "Only call initiator can end the call")])
  ∧ on_call_start_recording now sock callId s
    = (s, [Emit ToSender "call:error"
             (PError "Only call initiator can start recording")])
  ∧ on_call_stop_recording now sock callId s
    = (s, [Emit ToSender "call:error"
             (PError "Only call initiator can stop recording")]).
Proof.
  intros Hlive Hne.
  unfold on_call_end, on_call_start_recording, on_call_stop_recording,
    getActiveCall.
  rewrite Hlive, bool_decide_true by done. done.
Qed.

(** Participant B asks to end, to record and to stop recording A's call. *)
Lemma non_initiator_request_denied_witness :
  let s1 := fst (startRecording 1 "call_1" abcService) in
  let sockB := mkSocket (IdStr "B") "sock_b" in
  on_call_end 2 sockB "call_1" s1
    = (s1, [Emit ToSender "call:error"
              (PError "Only call initiator can end the call")])
  ∧ on_call_start_recording 2 sockB "call_1" s1
    = (s1, [Emit ToSender "call:error"
              (PError "Only call initiator can start recording")])
  ∧ on_call_stop_recording 2 sockB "call_1" s1
    = (s1, [Emit ToSender "call:error"
              (PError "Only call initiator can stop recording")]).
Proof.
  cbv zeta.
  apply (non_initiator_request_denied 2 (mkSocket (IdStr "B") "sock_b")
           "call_1" (fst (startRecording 1 "call_1" abcService))
           (mkCall "call_1" (IdStr "A") [IdStr "B"; IdStr "C"] "audio"
              "Call" initiating 0 None 0
              (Some (mkRecording "call_1_1" "uploads/recordings/call_1_1.webm"
                       rec_recording 1 None 0))
              [] (initConnectionStatus [IdStr "B"; IdStr "C"]))).
  - vm_compute. reflexivity.
  - cbn. done.
Defined.

(** ** Signaling *)

(** C7, as the code has it: on a live call a signal of any sender, invited
    or not, is accepted; the message is appended to [call.messages], and
    the handler forwards it to the room of the target user when a truthy
    [targetUserId] is given, else to the room of the call, the sender's
    socket excepted. *)
Theorem signal_relayed_for_any_sender (now : Z) (sock : Socket)
    (callId type : string) (target : option JsId) (payload : string)
    (s : Service) (call : Call) :
  activeCalls s !! callId = Some call →
  ∃ call',
    handleSignaling now callId type (sock_userId sock) payload s
      = (set_activeCalls (<[callId := call']> (activeCalls s)) s,
         Ok (mkMessage type (sock_userId sock) payload now, call'))
    ∧ messages call'
      = messages call ++ [mkMessage type (sock_userId sock) payload now]
    ∧ on_webrtc_signal now sock callId type target payload s
      = (set_activeCalls (<[callId := call']> (activeCalls s)) s,
         [Emit (ToRoomExceptSender (relayRoom callId target)) "webrtc:signal"
            (PSignal callId type (sock_userId sock) payload)])
    ∧ (∀ t, target = Some t → truthyId target = true →
            relayRoom callId target = "user_" +:+ propKey t)
    ∧ (truthyId target = false → relayRoom callId target = callId).
Proof.
  intros Hlive. unfold on_webrtc_signal, handleSignaling. rewrite Hlive.
  eexists. split; [reflexivity|]. split_and!; try done.
  - intros t -> Ht. unfold relayRoom. by rewrite Ht.
  - intros Hf. unfold relayRoom. destruct target; [by rewrite Hf|done].
Qed.

(** B sends an offer addressed to C. *)
Lemma signal_relayed_for_any_sender_witness :
  ∃ call',
    activeCalls
      (fst (on_webrtc_signal 1 (mkSocket (IdStr "B") "sock_b") "call_1"
              "offer" (Some (IdStr "C")) "sdp" abcService)) !! "call_1"
    = Some call'
    ∧ messages call' = [mkMessage "offer" (IdStr "B") "sdp" 1]
    ∧ snd (on_webrtc_signal 1 (mkSocket (IdStr "B") "sock_b") "call_1"
             "offer" (Some (IdStr "C")) "sdp" abcService)
      = [Emit (ToRoomExceptSender "user_C") "webrtc:signal"
           (PSignal "call_1" "offer" (IdStr "B") "sdp")].
Proof.
  destruct (signal_relayed_for_any_sender 1 (mkSocket (IdStr "B") "sock_b")
              "call_1" "offer" (Some (IdStr "C")) "sdp" abcService
              (mkCall "call_1" (IdStr "A") [IdStr "B"; IdStr "C"] "audio"
                 "Call" initiating 0 None 0 None []
                 (initConnectionStatus [IdStr "B"; IdStr "C"])))
    as (call' & _ & Hmsg & Hon & _).
  - vm_compute. reflexivity.
  - exists call'. rewrite Hon. cbn [fst snd]. split; [|split].
    + cbn. apply lookup_insert_eq.
    + exact Hmsg.
    + reflexivity.
Defined.

(** C7 fails as stated: Z is neither the initiator nor a participant of
    the call of A with B and C, yet its signal is accepted, logged in
    [call.messages] and relayed to the room of the call. *)
Lemma signal_of_uninvited_sender_is_logged :
  let r := on_webrtc_signal 1 (mkSocket (IdStr "Z") "sock_z") "call_1" "offer"
             None "sdp" abcService in
  (∃ call, activeCalls abcService !! "call_1" = Some call
     ∧ (IdStr "Z" ∉ participants call) ∧ initiatorId call ≠ IdStr "Z"
     ∧ messages call = [])
  ∧ (∃ m call', snd (handleSignaling 1 "call_1" "offer" (IdStr "Z") "sdp"
                       abcService) = Ok (m, call'))
  ∧ (∃ call', activeCalls (fst r) !! "call_1" = Some call'
       ∧ messages call' = [mkMessage "offer" (IdStr "Z") "sdp" 1])
  ∧ snd r = [Emit (ToRoomExceptSender "call_1") "webrtc:signal"
               (PSignal "call_1" "offer" (IdStr "Z") "sdp")].
Proof.
  cbv zeta. split_and!.
  - eexists. split; [vm_compute; reflexivity|]. cbn.
    split_and!; try done.
    intros [?|[?|?%elem_of_nil]%elem_of_cons]%elem_of_cons; done.
  - eexists _, _. reflexivity.
  - eexists. split; [vm_compute; reflexivity|]. by vm_compute.
  - by vm_compute.
Qed.

(** * Further properties of the service and the handler *)

(** ** Recording *)

Lemma not_isRecording_cases (call : Call) :
  ¬ isRecording call →
  recording call = None
  ∨ ∃ rid rpath rstart rend rsize,
      recording call = Some (mkRecording rid rpath rec_completed rstart rend rsize).
Proof.
  intros Hnot. destruct (recording call) as [[rid rpath [] rstart rend rsize]|] eqn:Hr.
  - exfalso. apply Hnot. eexists. by split.
  - right. by eexists _, _, _, _, _.
  - by left.
Qed.

(** [startRecording] on a live call that is not being recorded. *)
Lemma startRecording_fresh (now : Z) (callId : string) (s : Service)
    (call : Call) :
  activeCalls s !! callId = Some call →
  ¬ isRecording call →
  startRecording now callId s
  = (set_activeCalls
       (<[callId := set_recording
                      (Some (mkRecording (callId +:+ "_" +:+ pretty now)
                               (pathJoin (recordingsPath s)
                                  ((callId +:+ "_" +:+ pretty now) +:+ ".webm"))
                               rec_recording now None 0)) call]>
          (activeCalls s)) s,
     Ok (mkRecording (callId +:+ "_" +:+ pretty now)
           (pathJoin (recordingsPath s)
              ((callId +:+ "_" +:+ pretty now) +:+ ".webm"))
           rec_recording now None 0)).
Proof.
  intros Hlive Hnot. unfold startRecording. rewrite Hlive.
  destruct (not_isRecording_cases call Hnot)
    as [->|(rid & rpath & rstart & rend & rsize & ->)]; reflexivity.
Qed.

Lemma startRecording_busy (now : Z) (callId : string) (s : Service)
    (call : Call) :
  activeCalls s !! callId = Some call →
  isRecording call →
  startRecording now callId s = (s, Err "Call is already being recorded").
Proof.
  intros Hlive (r & Hr & Hs). unfold startRecording. rewrite Hlive, Hr.
  destruct r as [rid rpath rst rstart rend rsize]. cbn in Hs. by subst rst.
Qed.

(** X1: on a live call that is not being recorded, [startRecording]
    attaches a recording in status [recording], of size 0, started now and
    without end time; a second [startRecording] while it runs fails with
    "Call is already being recorded" and changes nothing, the first
    recording included. *)
Theorem startRecording_twice (t1 t2 : Z) (callId : string) (s : Service)
    (call : Call) :
  activeCalls s !! callId = Some call →
  ¬ isRecording call →
  ∃ r s1 call1,
    startRecording t1 callId s = (s1, Ok r)
    ∧ r_status r = rec_recording ∧ r_startTime r = t1
    ∧ r_endTime r = None ∧ r_size r = 0%N
    ∧ activeCalls s1 !! callId = Some call1
    ∧ recording call1 = Some r
    ∧ status call1 = status call
    ∧ connectionStatus call1 = connectionStatus call
    ∧ startRecording t2 callId s1 = (s1, Err "Call is already being recorded").
Proof.
  intros Hlive Hnot. rewrite (startRecording_fresh t1 callId s call Hlive Hnot).
  set (r := mkRecording _ _ _ _ _ _).
  exists r, (set_activeCalls
               (<[callId := set_recording (Some r) call]> (activeCalls s)) s),
    (set_recording (Some r) call).
  split; [reflexivity|]. split_and!; try done.
  - cbn. apply lookup_insert_eq.
  - eapply startRecording_busy.
    + cbn. apply lookup_insert_eq.
    + exists r. by split.
Qed.

(** On the running example: recording started at 1, asked again at 2. *)
Lemma startRecording_twice_witness :
  ∃ r s1,
    startRecording 1 "call_1" abcService = (s1, Ok r)
    ∧ r_id r = "call_1_1"
    ∧ startRecording 2 "call_1" s1 = (s1, Err "Call is already being recorded").
Proof.
  destruct (startRecording_twice 1 2 "call_1" abcService
              (mkCall "call_1" (IdStr "A") [IdStr "B"; IdStr "C"] "audio"
                 "Call" initiating 0 None 0 None []
                 (initConnectionStatus [IdStr "B"; IdStr "C"])))
    as (r & s1 & call1 & Hstart & _ & _ & _ & _ & _ & _ & _ & _ & Hagain).
  - vm_compute. reflexivity.
  - intros (r & Hr & _). cbn in Hr. done.
  - exists r, s1. split; [exact Hstart|]. split; [|exact Hagain].
    vm_compute in Hstart. by injection Hstart as <- <-.
Defined.

Lemma saveRecordingChunk_recording (callId : string) (chunk : list Byte.byte)
    (s : Service) (call : Call) (r : Recording) :
  activeCalls s !! callId = Some call →
  recording call = Some r → r_status r = rec_recording →
  saveRecordingChunk callId chunk s
  = (set_recordingFiles
       (<[r_path r := (default 0%N (recordingFiles s !! r_path r)
                       + N.of_nat (length chunk))%N]> (recordingFiles s)) s,
     Ok tt).
Proof.
  intros Hlive Hr Hs. unfold saveRecordingChunk. rewrite Hlive, Hr.
  destruct r as [rid rpath rst rstart rend rsize]. cbn in Hs. by subst rst.
Qed.

Lemma stopRecording_recording (now : Z) (callId : string) (s : Service)
    (call : Call) (r : Recording) :
  activeCalls s !! callId = Some call →
  recording call = Some r → r_status r = rec_recording →
  stopRecording now callId s
  = (set_activeCalls
       (<[callId := set_recording
                      (Some (mkRecording (r_id r) (r_path r) rec_completed
                               (r_startTime r) (Some now)
                               (default (r_size r)
                                  (recordingFiles s !! r_path r)))) call]>
          (activeCalls s)) s,
     Ok (mkRecording (r_id r) (r_path r) rec_completed (r_startTime r)
           (Some now) (default (r_size r) (recordingFiles s !! r_path r)))).
Proof.
  intros Hlive Hr Hs. unfold stopRecording. rewrite Hlive, Hr.
  destruct r as [rid rpath rst rstart rend rsize]. cbn in Hs. subst rst. cbn.
  by destruct (recordingFiles s !! rpath).
Qed.

Lemma not_recording_refused (now : Z) (sock : Socket) (callId : string)
    (chunk : list Byte.byte) (s : Service) (call : Call) :
  activeCalls s !! callId = Some call →
  ¬ isRecording call →
  stopRecording now callId s = (s, Err "No active recording found")
  ∧ saveRecordingChunk callId chunk s = (s, Err "No active recording")
  ∧ on_call_recording_chunk sock callId chunk s
    = (s, [Emit ToSender "call:error" (PError "No active recording")]).
Proof.
  intros Hlive Hnot.
  unfold on_call_recording_chunk, stopRecording, saveRecordingChunk.
  rewrite Hlive.
  destruct (not_isRecording_cases call Hnot)
    as [->|(rid & rpath & rstart & rend & rsize & ->)]; done.
Qed.

Lemma getCallRecording_live (callId : string) (s : Service) (call : Call)
    (r : Recording) :
  activeCalls s !! callId = Some call →
  recording call = Some r →
  getCallRecording callId s = TryOk r.
Proof.
  intros Hlive Hr. unfold getCallRecording. rewrite Hlive.
  destruct call. cbn in Hr. by subst.
Qed.

(** Chunks sent while the call is being recorded reach the file of the
    recording and nothing else. *)
Lemma sendChunks_recording (callId : string)
    (chunks : list (Socket * list Byte.byte)) :
  ∀ (s : Service) (call : Call) (r : Recording),
    activeCalls s !! callId = Some call →
    recording call = Some r → r_status r = rec_recording →
    activeCalls (sendChunks callId chunks s) = activeCalls s
    ∧ userConnections (sendChunks callId chunks s) = userConnections s
    ∧ historyFile (sendChunks callId chunks s) = historyFile s
    ∧ recordingsPath (sendChunks callId chunks s) = recordingsPath s
    ∧ default 0%N (recordingFiles (sendChunks callId chunks s) !! r_path r)
      = (default 0%N (recordingFiles s !! r_path r) + chunkBytes chunks)%N
    ∧ (chunks = [] ∨ is_Some (recordingFiles (sendChunks callId chunks s)
                                !! r_path r))
    ∧ ∀ p, p ≠ r_path r →
           recordingFiles (sendChunks callId chunks s) !! p
           = recordingFiles s !! p.
Proof.
  induction chunks as [|[sock chunk] rest IH]; intros s call r Hlive Hr Hs.
  - cbn. split_and!; try done; [lia|by left].
  - assert (sendChunks callId ((sock, chunk) :: rest) s
            = sendChunks callId rest
                (set_recordingFiles
                   (<[r_path r := (default 0%N (recordingFiles s !! r_path r)
                                   + N.of_nat (length chunk))%N]>
                      (recordingFiles s)) s)) as ->.
    { unfold sendChunks. cbn [foldl fst snd]. unfold on_call_recording_chunk.
      by rewrite (saveRecordingChunk_recording callId chunk s call r). }
    set (s1 := set_recordingFiles _ s).
    destruct (IH s1 call r Hlive Hr Hs)
      as (Hac & Huc & Hhf & Hrp & Hsz & Hsome & Hoth).
    split_and!; try done.
    + rewrite Hsz. subst s1. cbn. rewrite lookup_insert_eq. cbn.
      fold (chunkBytes rest). apply eq_sym, N.add_assoc.
    + right. destruct Hsome as [->|Hsome]; [|done].
      cbn. subst s1. cbn. rewrite lookup_insert_eq. by eexists.
    + intros p Hp. rewrite Hoth by done. subst s1. cbn.
      by rewrite lookup_insert_ne.
Qed.

(** X2: a recording started on a live call, fed chunks by
    'call:recording-chunk' events of any sockets, then stopped: every chunk
    is accepted, and the stop returns the same recording [completed], with
    the start and stop times, whose size is that of its file, what the file
    held before plus the bytes of all the chunks.  [getCallRecording] then
    returns it. *)
Theorem recording_size_is_sum_of_chunks (t1 t2 : Z) (callId : string)
    (chunks : list (Socket * list Byte.byte)) (s : Service) (call : Call) :
  activeCalls s !! callId = Some call →
  ¬ isRecording call →
  ∃ r s1 r' s3,
    startRecording t1 callId s = (s1, Ok r)
    ∧ stopRecording t2 callId (sendChunks callId chunks s1) = (s3, Ok r')
    ∧ r_status r' = rec_completed
    ∧ r_id r' = r_id r ∧ r_path r' = r_path r
    ∧ r_startTime r' = t1 ∧ r_endTime r' = Some t2
    ∧ r_size r'
      = (default 0%N (recordingFiles s !! r_path r) + chunkBytes chunks)%N
    ∧ (chunks ≠ [] → recordingFiles s3 !! r_path r = Some (r_size r'))
    ∧ getCallRecording callId s3 = TryOk r'.
Proof.
  intros Hlive Hnot.
  rewrite (startRecording_fresh t1 callId s call Hlive Hnot).
  set (r := mkRecording _ _ _ _ _ _).
  set (s1 := set_activeCalls _ s).
  assert (activeCalls s1 !! callId = Some (set_recording (Some r) call))
    as Hlive1 by (subst s1; cbn; apply lookup_insert_eq).
  destruct (sendChunks_recording callId chunks s1 _ r Hlive1 eq_refl eq_refl)
    as (Hac & _ & _ & _ & Hsz & Hsome & _).
  assert (activeCalls (sendChunks callId chunks s1) !! callId
          = Some (set_recording (Some r) call)) as Hlive2 by by rewrite Hac.
  pose proof (stopRecording_recording t2 callId _ _ r Hlive2 eq_refl eq_refl)
    as Hstop.
  eexists r, s1, _, _. split; [reflexivity|]. split; [exact Hstop|].
  assert (default (r_size r)
            (recordingFiles (sendChunks callId chunks s1) !! r_path r)
          = default 0%N
              (recordingFiles (sendChunks callId chunks s1) !! r_path r))
    as Hdef by done.
  cbn [r_status r_id r_path r_startTime r_endTime r_size].
  split_and!; try done.
  - intros Hne. destruct Hsome as [?|[n Hn]]; [done|].
    cbn [recordingFiles set_activeCalls]. by rewrite Hn.
  - eapply getCallRecording_live; [cbn; apply lookup_insert_eq|done].
Qed.

(** On the running example: two chunks of 3 and 2 bytes, the second sent
    by the uninvited Z. *)
Lemma recording_size_is_sum_of_chunks_witness :
  ∃ r' s3,
    stopRecording 9 "call_1"
      (sendChunks "call_1"
         [(mkSocket (IdStr "A") "sock_a", [Byte.x01; Byte.x02; Byte.x03]);
          (mkSocket (IdStr "Z") "sock_z", [Byte.x04; Byte.x05])]
         (fst (startRecording 1 "call_1" abcService)))
    = (s3, Ok r')
    ∧ r_size r' = 5%N ∧ r_status r' = rec_completed.
Proof.
  destruct (recording_size_is_sum_of_chunks 1 9 "call_1"
              [(mkSocket (IdStr "A") "sock_a", [Byte.x01; Byte.x02; Byte.x03]);
               (mkSocket (IdStr "Z") "sock_z", [Byte.x04; Byte.x05])]
              abcService
              (mkCall "call_1" (IdStr "A") [IdStr "B"; IdStr "C"] "audio"
                 "Call" initiating 0 None 0 None []
                 (initConnectionStatus [IdStr "B"; IdStr "C"])))
    as (r & s1 & r' & s3 & Hstart & Hstop & Hst & _ & _ & _ & _ & Hsize & _).
  - vm_compute. reflexivity.
  - intros (r & Hr & _). cbn in Hr. done.
  - exists r', s3. rewrite Hstart in *. cbn [fst]. split; [exact Hstop|].
    split; [|exact Hst]. rewrite Hsize. vm_compute. reflexivity.
Defined.

(** X3: stopping a running recording completes it, and from then on the
    call has nothing to stop: a second [stopRecording] fails with
    "No active recording found", a further chunk is refused with
    "No active recording", both leaving the state as it is; a new
    [startRecording] is accepted and replaces the completed recording on
    the call. *)
Theorem stopRecording_closes_the_recording (t1 t2 t3 : Z) (sock : Socket)
    (callId : string) (chunk : list Byte.byte) (s : Service) (call : Call) :
  activeCalls s !! callId = Some call →
  isRecording call →
  ∃ r' s1,
    stopRecording t1 callId s = (s1, Ok r')
    ∧ r_status r' = rec_completed ∧ r_endTime r' = Some t1
    ∧ getCallRecording callId s1 = TryOk r'
    ∧ stopRecording t2 callId s1 = (s1, Err "No active recording found")
    ∧ on_call_recording_chunk sock callId chunk s1
      = (s1, [Emit ToSender "call:error" (PError "No active recording")])
    ∧ ∃ r2 s2,
        startRecording t3 callId s1 = (s2, Ok r2)
        ∧ r_status r2 = rec_recording
        ∧ getCallRecording callId s2 = TryOk r2.
Proof.
  intros Hlive (r & Hr & Hs).
  rewrite (stopRecording_recording t1 callId s call r Hlive Hr Hs).
  set (r' := mkRecording _ _ _ _ _ _).
  set (s1 := set_activeCalls _ s).
  assert (activeCalls s1 !! callId = Some (set_recording (Some r') call))
    as Hlive1 by (subst s1; cbn; apply lookup_insert_eq).
  assert (¬ isRecording (set_recording (Some r') call)) as Hnot.
  { intros (x & Hx & Hxs). cbn in Hx. injection Hx as <-. done. }
  destruct (not_recording_refused t2 sock callId chunk s1 _ Hlive1 Hnot)
    as (Hstop & _ & Hchunk).
  exists r', s1. split; [reflexivity|]. split_and!; try done.
  - eapply getCallRecording_live; [exact Hlive1|done].
  - rewrite (startRecording_fresh t3 callId s1 _ Hlive1 Hnot).
    eexists _, _. split; [reflexivity|]. split; [done|].
    eapply getCallRecording_live; [cbn; apply lookup_insert_eq|done].
Qed.

Lemma stopRecording_closes_the_recording_witness :
  let s0 := fst (startRecording 1 "call_1" abcService) in
  ∃ r' s1,
    stopRecording 2 "call_1" s0 = (s1, Ok r')
    ∧ r_status r' = rec_completed
    ∧ stopRecording 3 "call_1" s1 = (s1, Err "No active recording found").
Proof.
  cbv zeta.
  destruct (stopRecording_closes_the_recording 2 3 4
              (mkSocket (IdStr "A") "sock_a") "call_1" [] 
              (fst (startRecording 1 "call_1" abcService))
              (mkCall "call_1" (IdStr "A") [IdStr "B"; IdStr "C"] "audio"
                 "Call" initiating 0 None 0
                 (Some (mkRecording "call_1_1"
                          "uploads/recordings/call_1_1.webm" rec_recording
                          1 None 0))
                 [] (initConnectionStatus [IdStr "B"; IdStr "C"])))
    as (r' & s1 & Hstop & Hst & _ & _ & Hagain & _).
  - vm_compute. reflexivity.
  - eexists. split; [reflexivity|done].
  - by exists r', s1.
Defined.

(** ** Unknown calls *)

(** X4: a request that names a call id absent from [activeCalls] is
    refused by every method and handler that takes one, and none of them
    changes the service state: "Call not found" from [joinCall],
    [leaveCall], [endCall], [startRecording], [stopRecording],
    [handleSignaling], [getActiveCall] and the guarded handlers,
    "No active recording" for a chunk, and silence from the signal
    handler. *)
Theorem unknown_call_is_refused (now : Z) (sock : Socket) (callId : string)
    (u : JsId) (type payload : string) (target : option JsId)
    (chunk : list Byte.byte) (s : Service) :
  activeCalls s !! callId = None →
  joinCall now callId u (sock_id sock) s = (s, Err "Call not found")
  ∧ leaveCall now callId u s = (s, Err "Call not found")
  ∧ endCall now callId s = (s, Err "Call not found")
  ∧ startRecording now callId s = (s, Err "Call not found")
  ∧ stopRecording now callId s = (s, Err "Call not found")
  ∧ saveRecordingChunk callId chunk s = (s, Err "No active recording")
  ∧ handleSignaling now callId type u payload s = (s, Err "Call not found")
  ∧ getActiveCall callId s = Err "Call not found"
  ∧ on_call_end now sock callId s
    = (s, [Emit ToSender "call:error" (PError "Call not found")])
  ∧ on_call_start_recording now sock callId s
    = (s, [Emit ToSender "call:error" (PError "Call not found")])
  ∧ on_call_stop_recording now sock callId s
    = (s, [Emit ToSender "call:error" (PError "Call not found")])
  ∧ on_call_recording_chunk sock callId chunk s
    = (s, [Emit ToSender "call:error" (PError "No active recording")])
  ∧ on_webrtc_signal now sock callId type target payload s = (s, []).
Proof.
  intros Hgone.
  unfold joinCall, leaveCall, endCall, startRecording, stopRecording,
    on_call_end, on_call_start_recording, on_call_stop_recording,
    on_call_recording_chunk, on_webrtc_signal, saveRecordingChunk,
    handleSignaling, getActiveCall.
  rewrite Hgone. by split_and!.
Qed.

(** A call ended once is unknown to every later request. *)
Lemma unknown_call_is_refused_witness :
  let s1 := fst (endCall 1 "call_1" abcService) in
  joinCall 2 "call_1" (IdStr "B") "sock_b" s1 = (s1, Err "Call not found")
  ∧ leaveCall 2 "call_1" (IdStr "B") s1 = (s1, Err "Call not found").
Proof.
  cbv zeta.
  destruct (unknown_call_is_refused 2 (mkSocket (IdStr "B") "sock_b") "call_1"
              (IdStr "B") "offer" "sdp" None []
              (fst (endCall 1 "call_1" abcService)))
    as (Hjoin & Hleave & _).
  - vm_compute. reflexivity.
  - by split.
Defined.

(** ** The history file *)

Lemma pushCapped_drop (h : list CallHistory) (r : CallHistory) :
  pushCapped h r = drop (length h + 1 - 100) h ++ [r].
Proof.
  unfold pushCapped. rewrite length_app. cbn [length].
  case_bool_decide as Hlen.
  - rewrite drop_app_le by lia. done.
  - replace (length h + 1 - 100)%nat with 0%nat by lia. done.
Qed.

(** X5: retention of the history file.  Ending a live call with a readable
    history file of [n] records leaves the newest [min n 99] of them, in
    their order, followed by the record of the ended call: at most 100
    records, the oldest dropped first. *)
Theorem endCall_history_keeps_newest (now : Z) (callId : string) (s : Service)
    (call : Call) :
  activeCalls s !! callId = Some call →
  historyFile s ≠ Garbled →
  ∃ call' s1 h',
    endCall now callId s = (s1, Ok call')
    ∧ historyFile s1 = Json h'
    ∧ h' = drop (length (readHistory (historyFile s)) + 1 - 100)
             (readHistory (historyFile s)) ++ [toHistory call']
    ∧ (length h' ≤ 100)%nat
    ∧ last h' = Some (toHistory call')
    ∧ ((length (readHistory (historyFile s)) < 100)%nat →
       h' = readHistory (historyFile s) ++ [toHistory call'])
    ∧ (length (readHistory (historyFile s)) = 100%nat →
       h' = drop 1 (readHistory (historyFile s)) ++ [toHistory call']).
Proof.
  intros Hlive Hok.
  destruct (endCall_live now callId s call Hlive) as (call' & Hend & _).
  eexists call', _, _. split; [exact Hend|]. cbn [historyFile set_userConnections set_activeCalls].
  rewrite saveCallToHistory_file by done. split; [reflexivity|].
  rewrite pushCapped_drop. split; [reflexivity|].
  set (h := readHistory (historyFile s)). split_and!.
  - rewrite length_app, length_drop. cbn. lia.
  - apply last_snoc.
  - intros Hlt. by replace (length h + 1 - 100)%nat with 0%nat by lia.
  - intros ->. done.
Qed.

Lemma endCall_history_keeps_newest_witness :
  ∃ call' s1,
    endCall 5 "call_1" abcService = (s1, Ok call')
    ∧ historyFile s1 = Json [toHistory call'].
Proof.
  destruct (endCall_history_keeps_newest 5 "call_1" abcService
              (mkCall "call_1" (IdStr "A") [IdStr "B"; IdStr "C"] "audio"
                 "Call" initiating 0 None 0 None []
                 (initConnectionStatus [IdStr "B"; IdStr "C"])))
    as (call' & s1 & h' & Hend & Hfile & _ & _ & _ & Hshort & _).
  - vm_compute. reflexivity.
  - done.
  - exists call', s1. split; [exact Hend|]. rewrite Hfile, Hshort; [done|].
    cbn. lia.
Defined.

Lemma jsSlice_last {A : Type} (n : Z) (l : list A) :
  0 < n → jsSlice (- n) l = drop (length l - Z.to_nat n) l.
Proof.
  intros Hn. unfold jsSlice. rewrite bool_decide_true by lia. f_equal. lia.
Qed.

Lemma jsSlice_from {A : Type} (n : Z) (l : list A) :
  n ≤ 0 → jsSlice (- n) l = drop (Z.to_nat (- n)) l.
Proof. intros Hn. unfold jsSlice. by rewrite bool_decide_false by lia. Qed.

Lemma getCallHistory_positive (u : JsId) (limit : Z) (s : Service)
    (h : list CallHistory) :
  historyFile s = Json h →
  0 < limit →
  getCallHistory u limit s
  = TryOk (take (Z.to_nat limit) (reverse (filter (involves u) h))).
Proof.
  intros Hfile Hpos. unfold getCallHistory. rewrite Hfile.
  by rewrite jsSlice_last, <- take_reverse.
Qed.

(** X6: [getCallHistory] with a positive limit on a readable history file
    returns the records that involve the user, as initiator or as listed
    participant, newest first, cut after [limit]: never more than [limit]
    records, each one of the file and involving the user. *)
Theorem getCallHistory_newest_first (u : JsId) (limit : Z) (s : Service)
    (h : list CallHistory) :
  historyFile s = Json h →
  0 < limit →
  ∃ l,
    getCallHistory u limit s = TryOk l
    ∧ l = take (Z.to_nat limit) (reverse (filter (involves u) h))
    ∧ (Z.of_nat (length l) ≤ limit)
    ∧ (∀ c, c ∈ l → c ∈ h ∧ involves u c).
Proof.
  intros Hfile Hpos. rewrite (getCallHistory_positive u limit s h Hfile Hpos).
  eexists. split; [reflexivity|]. split; [reflexivity|]. split.
  - rewrite length_take. lia.
  - intros c Hc. apply subseteq_take in Hc.
    rewrite elem_of_reverse, list_elem_of_filter in Hc. tauto.
Qed.

Lemma getCallHistory_newest_first_witness :
  let s1 := fst (endCall 5 "call_1" abcService) in
  ∃ l, getCallHistory (IdStr "B") 1 s1 = TryOk l ∧ Z.of_nat (length l) ≤ 1.
Proof.
  cbv zeta.
  destruct (getCallHistory_newest_first (IdStr "B") 1
              (fst (endCall 5 "call_1" abcService))
              [toHistory
                 (mkCall "call_1" (IdStr "A") [IdStr "B"; IdStr "C"] "audio"
                    "Call" ended 0 (Some 5) 5 None []
                    (initConnectionStatus [IdStr "B"; IdStr "C"]))])
    as (l & Hget & _ & Hlen & _).
  - vm_compute. reflexivity.
  - lia.
  - by exists l.
Defined.

(** X7: a limit that is not positive does not cap the answer.  With limit
    0 every record that involves the user is returned, newest first; with
    limit [-n] all but the [n] oldest of them.  Through the
    'calls:get-history' handler a missing limit or the limit 0 becomes 20
    and the answer has at most 20 records. *)
Theorem getCallHistory_without_cap (sock : Socket) (limit : Z) (s : Service)
    (h : list CallHistory) :
  historyFile s = Json h →
  limit ≤ 0 →
  getCallHistory (sock_userId sock) limit s
    = TryOk (reverse (drop (Z.to_nat (- limit))
                        (filter (involves (sock_userId sock)) h)))
  ∧ getCallHistory (sock_userId sock) 0 s
    = TryOk (reverse (filter (involves (sock_userId sock)) h))
  ∧ on_calls_get_history sock None s = on_calls_get_history sock (Some 0) s
  ∧ on_calls_get_history sock (Some 0) s
    = TryOk (take 20 (reverse (filter (involves (sock_userId sock)) h))).
Proof.
  intros Hfile Hneg. unfold on_calls_get_history. cbn [historyLimit].
  rewrite bool_decide_true by done. split_and!; try done.
  - unfold getCallHistory. rewrite Hfile. by rewrite jsSlice_from.
  - unfold getCallHistory. rewrite Hfile. done.
  - by rewrite (getCallHistory_positive (sock_userId sock) 20 s h Hfile).
Qed.

Lemma getCallHistory_without_cap_witness :
  let s1 := fst (endCall 5 "call_1" abcService) in
  ∃ c, getCallHistory (IdStr "B") 0 s1 = TryOk [c] ∧ h_id c = "call_1".
Proof.
  cbv zeta.
  destruct (getCallHistory_without_cap (mkSocket (IdStr "B") "sock_b") 0
              (fst (endCall 5 "call_1" abcService))
              [toHistory
                 (mkCall "call_1" (IdStr "A") [IdStr "B"; IdStr "C"] "audio"
                    "Call" ended 0 (Some 5) 5 None []
                    (initConnectionStatus [IdStr "B"; IdStr "C"]))])
    as (_ & Hzero & _).
  - vm_compute. reflexivity.
  - lia.
  - eexists. split; [exact Hzero|]. reflexivity.
Defined.

Lemma involves_toHistory (u : JsId) (call : Call) :
  involves u (toHistory call) ↔ belongsTo u call.
Proof. done. Qed.

Lemma filter_snoc_involves (u : JsId) (h : list CallHistory) (r : CallHistory) :
  filter (involves u) (h ++ [r])
  = filter (involves u) h ++ (if decide (involves u r) then [r] else []).
Proof.
  rewrite filter_app. by f_equal.
Qed.

(** The history file after [endCall] of a live call. *)
Lemma endCall_history_file (now : Z) (callId : string) (s : Service)
    (call : Call) :
  activeCalls s !! callId = Some call →
  historyFile s ≠ Garbled →
  ∃ call',
    endCall now callId s
      = (set_userConnections
           (clearConnections (participants call) (userConnections s))
           (set_activeCalls (delete callId (activeCalls s))
              (fst (saveCallToHistory call' s))),
         Ok call')
    ∧ historyFile (fst (endCall now callId s))
      = Json (drop (length (readHistory (historyFile s)) + 1 - 100)
                (readHistory (historyFile s)) ++ [toHistory call'])
    ∧ activeCalls (fst (endCall now callId s)) !! callId = None
    ∧ recordingFiles (fst (endCall now callId s)) = recordingFiles s
    ∧ status call' = ended
    ∧ endTime call' = Some now
    ∧ duration call' = now - startTime call
    ∧ recording call' = recording call
    ∧ participants call' = participants call
    ∧ initiatorId call' = initiatorId call
    ∧ c_id call' = c_id call.
Proof.
  intros Hlive Hok.
  destruct (endCall_live now callId s call Hlive)
    as (call' & Hend & Hst & Het & Hdu & _ & Hrec & _ & Hps & Hini & Hid).
  exists call'. split; [exact Hend|].
  pose proof (endCall_removes now callId s callId) as Hgone.
  rewrite decide_True in Hgone by done.
  rewrite Hend in *. cbn [fst] in *.
  split_and!; try done.
  - cbn. by rewrite saveCallToHistory_file, pushCapped_drop.
  - cbn. by destruct (saveCallToHistory_fields call' s) as (_ & _ & _ & ->).
Qed.

(** X8: once a live call is ended with a readable history file, its
    record, in status [ended] with the end time and the duration
    [endTime - startTime], is the first answer of [getCallHistory] for its
    initiator and for each listed participant, whatever the positive
    limit; a user who is neither never gets it. *)
Theorem ended_call_heads_the_history (now : Z) (callId : string) (u v : JsId)
    (limit : Z) (s : Service) (call : Call) :
  activeCalls s !! callId = Some call →
  historyFile s ≠ Garbled →
  belongsTo u call →
  ¬ belongsTo v call →
  0 < limit →
  ∃ call' s1 rest,
    endCall now callId s = (s1, Ok call')
    ∧ getCallHistory u limit s1 = TryOk (toHistory call' :: rest)
    ∧ h_status (toHistory call') = ended
    ∧ h_endTime (toHistory call') = Some now
    ∧ h_duration (toHistory call') = now - startTime call
    ∧ ∃ l, getCallHistory v limit s1 = TryOk l ∧ toHistory call' ∉ l.
Proof.
  intros Hlive Hok Hu Hv Hpos.
  destruct (endCall_history_file now callId s call Hlive Hok)
    as (call' & Hend & Hfile & _ & _ & Hst & Het & Hdu & _ & Hps & Hini & _).
  rewrite Hend in Hfile. cbn [fst] in Hfile.
  eexists call', _, _. split; [exact Hend|].
  rewrite !(getCallHistory_positive _ limit _ _ Hfile Hpos).
  rewrite !filter_snoc_involves.
  rewrite decide_True by (unfold involves, belongsTo in *; cbn; by rewrite Hps, Hini).
  rewrite decide_False by (unfold involves, belongsTo in *; cbn; by rewrite Hps, Hini).
  rewrite reverse_snoc, app_nil_r.
  replace (Z.to_nat limit) with (S (Z.to_nat limit - 1)) by lia.
  cbn [take]. split; [reflexivity|]. split_and!; try done.
  eexists. split; [reflexivity|].
  intros Hin. apply subseteq_take in Hin.
  rewrite elem_of_reverse, list_elem_of_filter in Hin.
  destruct Hin as [Hin _]. apply Hv.
  unfold involves, belongsTo in *. cbn in Hin. by rewrite <- Hps, <- Hini.
Qed.

Lemma ended_call_heads_the_history_witness :
  ∃ call' s1 rest,
    endCall 5 "call_1" abcService = (s1, Ok call')
    ∧ getCallHistory (IdStr "B") 20 s1 = TryOk (toHistory call' :: rest).
Proof.
  destruct (ended_call_heads_the_history 5 "call_1" (IdStr "B") (IdStr "Z") 20
              abcService
              (mkCall "call_1" (IdStr "A") [IdStr "B"; IdStr "C"] "audio"
                 "Call" initiating 0 None 0 None []
                 (initConnectionStatus [IdStr "B"; IdStr "C"])))
    as (call' & s1 & rest & Hend & Hget & _).
  - vm_compute. reflexivity.
  - done.
  - left. cbn. apply elem_of_cons. by left.
  - intros [Hin|Hini]; [|done]. cbn in Hin.
    apply elem_of_cons in Hin as [?|Hin]; [done|].
    apply elem_of_cons in Hin as [?|Hin]; [done|].
    by apply elem_of_nil in Hin.
  - lia.
  - by exists call', s1, rest.
Defined.

(** ** Stored recordings *)

Lemma findRecord_snoc_fresh (callId : string) (h : list CallHistory)
    (r : CallHistory) :
  (∀ c, c ∈ h → h_id c ≠ callId) → h_id r = callId →
  findRecord callId (h ++ [r]) = Some (length h, r).
Proof.
  intros Hfresh Hid. unfold findRecord. rewrite list_find_app_r.
  - cbn. rewrite decide_True by done. cbn. done.
  - apply list_find_None, Forall_forall. exact Hfresh.
Qed.

(** X9: the recording of a call outlives the call.  When a live call that
    carries a recording is ended, the history file being readable and
    holding no older record of the same id, [getCallRecording] still
    answers with that recording, now read from the history. *)
Theorem ended_call_recording_is_kept (now : Z) (callId : string) (s : Service)
    (call : Call) (r : Recording) :
  activeCalls s !! callId = Some call →
  c_id call = callId →
  recording call = Some r →
  historyFile s ≠ Garbled →
  (∀ c, c ∈ readHistory (historyFile s) → h_id c ≠ callId) →
  getCallRecording callId s = TryOk r
  ∧ ∃ call' s1,
      endCall now callId s = (s1, Ok call')
      ∧ activeCalls s1 !! callId = None
      ∧ getCallRecording callId s1 = TryOk r.
Proof.
  intros Hlive Hid Hrec Hok Hfresh.
  split; [by eapply getCallRecording_live|].
  destruct (endCall_history_file now callId s call Hlive Hok)
    as (call' & Hend & Hfile & Hgone & _ & _ & _ & _ & Hrec' & _ & _ & Hid').
  rewrite Hend in Hfile, Hgone. cbn [fst] in Hfile, Hgone.
  eexists call', _. split; [exact Hend|]. split; [exact Hgone|].
  unfold getCallRecording. rewrite Hgone, Hfile.
  rewrite findRecord_snoc_fresh.
  - cbn. by rewrite Hrec', Hrec.
  - intros c Hc. apply Hfresh. by eapply subseteq_drop.
  - cbn. congruence.
Qed.

Lemma ended_call_recording_is_kept_witness :
  let s0 := fst (startRecording 1 "call_1" abcService) in
  ∃ r, getCallRecording "call_1" s0 = TryOk r
       ∧ getCallRecording "call_1" (fst (endCall 2 "call_1" s0)) = TryOk r.
Proof.
  cbv zeta.
  destruct (ended_call_recording_is_kept 2 "call_1"
              (fst (startRecording 1 "call_1" abcService))
              (mkCall "call_1" (IdStr "A") [IdStr "B"; IdStr "C"] "audio"
                 "Call" initiating 0 None 0
                 (Some (mkRecording "call_1_1"
                          "uploads/recordings/call_1_1.webm" rec_recording
                          1 None 0))
                 [] (initConnectionStatus [IdStr "B"; IdStr "C"]))
              (mkRecording "call_1_1" "uploads/recordings/call_1_1.webm"
                 rec_recording 1 None 0))
    as (Hbefore & call' & s1 & Hend & _ & Hafter).
  - vm_compute. reflexivity.
  - reflexivity.
  - reflexivity.
  - done.
  - intros c Hc. cbn in Hc. by apply elem_of_nil in Hc.
  - eexists. split; [exact Hbefore|]. by rewrite Hend.
Defined.

Lemma findRecord_cleared (callId : string) (h : list CallHistory) (i : nat)
    (c : CallHistory) :
  findRecord callId h = Some (i, c) →
  findRecord callId (<[i := clear_h_recording c]> h)
  = Some (i, clear_h_recording c).
Proof.
  unfold findRecord. intros (Hi & Hid & Hleast)%list_find_Some.
  apply list_find_Some. split_and!.
  - apply list_lookup_insert_eq. by eapply lookup_lt_Some.
  - done.
  - intros j y Hj Hlt. rewrite list_lookup_insert_ne in Hj by lia.
    by eapply Hleast.
Qed.

(** X10: deleting the recording of an ended call.  When the call is no
    longer active and its first record in a readable history file carries
    a recording, [deleteRecording] succeeds: the file of the recording is
    gone, that record has lost its recording and every other record is as
    it was.  From then on [getCallRecording] answers "Recording not found"
    and a second [deleteRecording] is refused without any change. *)
Theorem deleteRecording_of_ended_call (callId : string) (s : Service)
    (h : list CallHistory) (i : nat) (c : CallHistory) (r : Recording) :
  activeCalls s !! callId = None →
  historyFile s = Json h →
  findRecord callId h = Some (i, c) →
  h_recording c = Some r →
  ∃ s1 h1,
    getCallRecording callId s = TryOk r
    ∧ deleteRecording callId s = (s1, TryOk tt)
    ∧ recordingFiles s1 = delete (r_path r) (recordingFiles s)
    ∧ activeCalls s1 = activeCalls s
    ∧ userConnections s1 = userConnections s
    ∧ historyFile s1 = Json h1
    ∧ length h1 = length h
    ∧ h1 !! i = Some (clear_h_recording c)
    ∧ (∀ j, j ≠ i → h1 !! j = h !! j)
    ∧ getCallRecording callId s1 = TryErr "Recording not found"
    ∧ deleteRecording callId s1 = (s1, TryErr "Recording not found").
Proof.
  intros Hgone Hfile Hfind Hrec.
  assert (getCallRecording callId s = TryOk r) as Hget.
  { unfold getCallRecording. by rewrite Hgone, Hfile, Hfind, Hrec. }
  assert (i < length h)%nat as Hlt.
  { apply list_find_Some in Hfind as (Hi & _). by eapply lookup_lt_Some. }
  eexists _, (<[i := clear_h_recording c]> h). split; [exact Hget|].
  unfold deleteRecording at 1. rewrite Hget. cbn [historyFile set_recordingFiles].
  rewrite Hfile, Hfind. split; [reflexivity|]. cbn.
  assert (getCallRecording callId
            (set_historyFile (Json (<[i:=clear_h_recording c]> h))
               (set_recordingFiles (delete (r_path r) (recordingFiles s)) s))
          = TryErr "Recording not found") as Hget'.
  { unfold getCallRecording. cbn. rewrite Hgone.
    by rewrite (findRecord_cleared callId h i c Hfind). }
  split_and!; try done.
  - apply length_insert.
  - by apply list_lookup_insert_eq.
  - intros j Hj. by apply list_lookup_insert_ne.
  - unfold deleteRecording. by rewrite Hget'.
Qed.

Lemma deleteRecording_of_ended_call_witness :
  let s0 := fst (endCall 2 "call_1" (fst (startRecording 1 "call_1" abcService))) in
  ∃ s1,
    deleteRecording "call_1" s0 = (s1, TryOk tt)
    ∧ getCallRecording "call_1" s1 = TryErr "Recording not found".
Proof.
  cbv zeta.
  destruct (deleteRecording_of_ended_call "call_1"
              (fst (endCall 2 "call_1"
                      (fst (startRecording 1 "call_1" abcService))))
              [toHistory
                 (mkCall "call_1" (IdStr "A") [IdStr "B"; IdStr "C"] "audio"
                    "Call" ended 0 (Some 2) 2
                    (Some (mkRecording "call_1_1"
                             "uploads/recordings/call_1_1.webm" rec_recording
                             1 None 0))
                    [] (initConnectionStatus [IdStr "B"; IdStr "C"]))]
              0%nat
              (toHistory
                 (mkCall "call_1" (IdStr "A") [IdStr "B"; IdStr "C"] "audio"
                    "Call" ended 0 (Some 2) 2
                    (Some (mkRecording "call_1_1"
                             "uploads/recordings/call_1_1.webm" rec_recording
                             1 None 0))
                    [] (initConnectionStatus [IdStr "B"; IdStr "C"])))
              (mkRecording "call_1_1" "uploads/recordings/call_1_1.webm"
                 rec_recording 1 None 0))
    as (s1 & h1 & _ & Hdel & _ & _ & _ & _ & _ & _ & _ & Hget & _).
  - vm_compute. reflexivity.
  - vm_compute. reflexivity.
  - vm_compute. reflexivity.
  - reflexivity.
  - by exists s1.
Defined.

(** X11: deleting the recording of a call that is still active.  With a
    readable or absent history file [deleteRecording] succeeds and the
    file of the recording is gone, but the call keeps its recording: the
    calls of the registry are untouched and [getCallRecording] goes on
    answering with the deleted recording. *)
Theorem deleteRecording_of_live_call (callId : string) (s : Service)
    (call : Call) (r : Recording) :
  activeCalls s !! callId = Some call →
  recording call = Some r →
  historyFile s ≠ Garbled →
  ∃ s1,
    deleteRecording callId s = (s1, TryOk tt)
    ∧ recordingFiles s1 !! r_path r = None
    ∧ activeCalls s1 = activeCalls s
    ∧ getCallRecording callId s1 = TryOk r.
Proof.
  intros Hlive Hrec Hok.
  pose proof (getCallRecording_live callId s call r Hlive Hrec) as Hget.
  unfold deleteRecording. rewrite Hget. cbn [historyFile set_recordingFiles].
  destruct (historyFile s) as [|h|] eqn:Hfile; [| |done].
  - eexists. split; [reflexivity|]. cbn. split; [apply lookup_delete_eq|].
    split; [done|]. by eapply getCallRecording_live.
  - destruct (findRecord callId h) as [[i c]|].
    + eexists. split; [reflexivity|]. cbn. split; [apply lookup_delete_eq|].
      split; [done|]. by eapply getCallRecording_live.
    + eexists. split; [reflexivity|]. cbn. split; [apply lookup_delete_eq|].
      split; [done|]. by eapply getCallRecording_live.
Qed.

Lemma deleteRecording_of_live_call_witness :
  let s0 := fst (startRecording 1 "call_1" abcService) in
  ∃ s1 r,
    deleteRecording "call_1" s0 = (s1, TryOk tt)
    ∧ getCallRecording "call_1" s1 = TryOk r
    ∧ r_status r = rec_recording.
Proof.
  cbv zeta.
  destruct (deleteRecording_of_live_call "call_1"
              (fst (startRecording 1 "call_1" abcService))
              (mkCall "call_1" (IdStr "A") [IdStr "B"; IdStr "C"] "audio"
                 "Call" initiating 0 None 0
                 (Some (mkRecording "call_1_1"
                          "uploads/recordings/call_1_1.webm" rec_recording
                          1 None 0))
                 [] (initConnectionStatus [IdStr "B"; IdStr "C"]))
              (mkRecording "call_1_1" "uploads/recordings/call_1_1.webm"
                 rec_recording 1 None 0))
    as (s1 & Hdel & _ & _ & Hget).
  - vm_compute. reflexivity.
  - reflexivity.
  - done.
  - eexists s1, _. split; [exact Hdel|]. split; [exact Hget|]. reflexivity.
Defined.

(** ** The registry over time *)

(** All that [joinCall] does on a live call. *)
Lemma joinCall_effect (now : Z) (callId : string) (u : JsId) (sock : string)
    (s : Service) (call : Call) :
  activeCalls s !! callId = Some call →
  (¬ belongsTo u call
   ∧ joinCall now callId u sock s = (s, Err "User not invited to this call"))
  ∨ (belongsTo u call
     ∧ ∃ call',
         joinCall now callId u sock s
           = (set_userConnections (<[u := sock]> (userConnections s))
                (set_activeCalls (<[callId := call']> (activeCalls s)) s),
              Ok (call', connectedCount (connectionStatus call')))
         ∧ connectionStatus call'
           = <[propKey u := connected]> (connectionStatus call)
         ∧ c_id call' = c_id call
         ∧ participants call' = participants call
         ∧ initiatorId call' = initiatorId call
         ∧ recording call' = recording call
         ∧ (status call' = status call
            ∨ status call = initiating ∧ status call' = active)).
Proof.
  intros Hlive. unfold joinCall. rewrite Hlive.
  destruct (decide (belongsTo u call)) as [Hin|Hnin].
  - right. split; [done|]. rewrite invited_check by done.
    cbn [participants set_connectionStatus status].
    destruct (allConnected (participants call)
                (<[propKey u := connected]> (connectionStatus call))
              && bool_decide (status call = initiating)) eqn:Htest.
    + apply andb_true_iff in Htest as [_ Hst%bool_decide_eq_true].
      eexists. split; [reflexivity|]. cbn. split_and!; try done. by right.
    + eexists. split; [reflexivity|]. cbn. split_and!; try done. by left.
  - left. split; [done|]. rewrite uninvited_check; [done| |].
    + intros Hin. apply Hnin. by left.
    + intros Hini. apply Hnin. by right.
Qed.

(** All that [leaveCall] does on a live call. *)
Lemma leaveCall_effect (now : Z) (callId : string) (u : JsId) (s : Service)
    (call : Call) :
  activeCalls s !! callId = Some call →
  ∃ call' s',
    leaveCall now callId u s
      = (s', Ok (call',
                 length (connectedUsers
                           (<[propKey u := disconnected]> (connectionStatus call)))))
    ∧ connectionStatus call'
      = <[propKey u := disconnected]> (connectionStatus call)
    ∧ c_id call' = c_id call
    ∧ participants call' = participants call
    ∧ initiatorId call' = initiatorId call
    ∧ recording call' = recording call
    ∧ (∀ d, d ≠ callId → activeCalls s' !! d = activeCalls s !! d)
    ∧ userConnections s' !! u = None
    ∧ recordingFiles s' = recordingFiles s
    ∧ ((shouldEnd (connectedUsers (connectionStatus call')) (initiatorId call)
        = true
        ∧ activeCalls s' !! callId = None ∧ status call' = ended
        ∧ endTime call' = Some now
        ∧ (historyFile s ≠ Garbled →
           historyFile s'
           = Json (drop (length (readHistory (historyFile s)) + 1 - 100)
                     (readHistory (historyFile s)) ++ [toHistory call'])))
       ∨ (shouldEnd (connectedUsers (connectionStatus call')) (initiatorId call)
          = false
          ∧ activeCalls s' !! callId = Some call' ∧ status call' = status call
          ∧ historyFile s' = historyFile s)).
Proof.
  intros Hlive. unfold leaveCall. rewrite Hlive.
  cbn [initiatorId set_connectionStatus].
  set (cs := <[propKey u := disconnected]> (connectionStatus call)).
  set (call1 := set_connectionStatus cs call).
  set (s2 := set_userConnections _ _).
  assert (activeCalls s2 !! callId = Some call1) as Hlive2.
  { subst s2. cbn. apply lookup_insert_eq. }
  assert (∀ d, d ≠ callId → activeCalls s2 !! d = activeCalls s !! d) as Hframe2.
  { intros d Hd. subst s2. cbn. by rewrite lookup_insert_ne. }
  destruct (shouldEnd (connectedUsers cs) (initiatorId call)) eqn:Hend.
  - destruct (endCall_live now callId s2 call1 Hlive2)
      as (call' & Hec & Hst & Het & _ & _ & Hrec & Hcs & Hps & Hini & Hid).
    pose proof (endCall_removes now callId s2) as Hrem.
    assert (historyFile s ≠ Garbled →
            historyFile (fst (endCall now callId s2))
            = Json (drop (length (readHistory (historyFile s)) + 1 - 100)
                      (readHistory (historyFile s)) ++ [toHistory call']))
      as Hhist.
    { intros Hok.
      destruct (endCall_history_file now callId s2 call1 Hlive2 Hok)
        as (c & Hec' & Hfile & _).
      assert (c = call') as -> by congruence. exact Hfile. }
    rewrite Hec in *. cbn [fst] in Hrem, Hhist.
    eexists call', _. split; [reflexivity|].
    split_and!; try done.
    + intros d Hd. rewrite Hrem, decide_False by done. by apply Hframe2.
    + cbn [userConnections set_userConnections].
      rewrite clearConnections_lookup. case_decide; [done|].
      subst s2. cbn. apply lookup_delete_eq.
    + cbn. by destruct (saveCallToHistory_fields call' s2) as (_ & _ & _ & ->).
    + left. rewrite Hcs. split_and!; try done.
      specialize (Hrem callId). by rewrite decide_True in Hrem.
  - eexists call1, s2. split; [reflexivity|].
    split_and!; try done.
    + subst s2. cbn. apply lookup_delete_eq.
    + right. by split_and!.
Qed.

(** What the other methods do to [activeCalls]: the entry of [callId] is
    rewritten with the same id and status, or nothing changes. *)
Lemma recording_methods_keep_calls (now : Z) (callId type payload : string)
    (u : JsId) (chunk : list Byte.byte) (s : Service) (d : string) (c' : Call) :
  (activeCalls (fst (startRecording now callId s)) !! d = Some c'
   ∨ activeCalls (fst (stopRecording now callId s)) !! d = Some c'
   ∨ activeCalls (fst (handleSignaling now callId type u payload s)) !! d
     = Some c'
   ∨ activeCalls (fst (saveRecordingChunk callId chunk s)) !! d = Some c'
   ∨ activeCalls (fst (deleteRecording callId s)) !! d = Some c') →
  ∃ c, activeCalls s !! d = Some c
       ∧ c_id c' = c_id c ∧ status c' = status c
       ∧ participants c' = participants c ∧ initiatorId c' = initiatorId c
       ∧ connectionStatus c' = connectionStatus c.
Proof.
  assert (∀ (m : gmap string Call) (c0 c1 : Call),
            m !! callId = Some c0 →
            c_id c1 = c_id c0 → status c1 = status c0 →
            participants c1 = participants c0 →
            initiatorId c1 = initiatorId c0 →
            connectionStatus c1 = connectionStatus c0 →
            <[callId := c1]> m !! d = Some c' →
            ∃ c, m !! d = Some c
                 ∧ c_id c' = c_id c ∧ status c' = status c
                 ∧ participants c' = participants c
                 ∧ initiatorId c' = initiatorId c
                 ∧ connectionStatus c' = connectionStatus c) as Hins.
  { intros m c0 c1 Hm ? ? ? ? ? Hl.
    destruct (decide (d = callId)) as [->|Hne].
    - rewrite lookup_insert_eq in Hl. injection Hl as <-. by exists c0.
    - rewrite lookup_insert_ne in Hl by done. by exists c'. }
  assert (activeCalls s !! d = Some c' →
          ∃ c, activeCalls s !! d = Some c
               ∧ c_id c' = c_id c ∧ status c' = status c
               ∧ participants c' = participants c
               ∧ initiatorId c' = initiatorId c
               ∧ connectionStatus c' = connectionStatus c) as Hsame.
  { intros H. by exists c'. }
  intros [H|[H|[H|[H|H]]]].
  - unfold startRecording in H.
    destruct (activeCalls s !! callId) as [c0|] eqn:Hc0; [|by apply Hsame].
    destruct (recording c0) as [[? ? [] ? ? ?]|];
      cbn [fst activeCalls set_activeCalls] in H; try (by apply Hsame);
      by refine (Hins _ c0 _ Hc0 _ _ _ _ _ H).
  - unfold stopRecording in H.
    destruct (activeCalls s !! callId) as [c0|] eqn:Hc0; [|by apply Hsame].
    destruct (recording c0) as [[? ? [] ? ? ?]|];
      cbn [fst activeCalls set_activeCalls] in H; try (by apply Hsame);
      by refine (Hins _ c0 _ Hc0 _ _ _ _ _ H).
  - unfold handleSignaling in H.
    destruct (activeCalls s !! callId) as [c0|] eqn:Hc0; [|by apply Hsame].
    cbn [fst activeCalls set_activeCalls] in H.
    by refine (Hins _ c0 _ Hc0 _ _ _ _ _ H).
  - unfold saveRecordingChunk in H.
    destruct (activeCalls s !! callId) as [c0|] eqn:Hc0; [|by apply Hsame].
    destruct (recording c0) as [[? ? [] ? ? ?]|]; cbn in H; by apply Hsame.
  - unfold deleteRecording in H.
    destruct (getCallRecording callId s); [|by apply Hsame..].
    cbn in H. destruct (historyFile s) as [|h|]; cbn in H; try by apply Hsame.
    destruct (findRecord callId h) as [[i c]|]; by apply Hsame.
Qed.

(** X12: every call of the registry is stored under its own id and has
    not ended, and each method that changes the service keeps it so:
    creating, joining, leaving, ending, starting and stopping a recording,
    saving a chunk, signaling and deleting a recording. *)
Theorem registry_holds_live_calls_by_id (now : Z) (callId type payload : string)
    (u initiator : JsId) (ps : list JsId) (ttl : option string)
    (sock : string) (chunk : list Byte.byte) (s : Service) :
  registryOk s →
  registryOk (fst (initiateCall now callId initiator ps type ttl s))
  ∧ registryOk (fst (joinCall now callId u sock s))
  ∧ registryOk (fst (leaveCall now callId u s))
  ∧ registryOk (fst (endCall now callId s))
  ∧ registryOk (fst (startRecording now callId s))
  ∧ registryOk (fst (stopRecording now callId s))
  ∧ registryOk (fst (saveRecordingChunk callId chunk s))
  ∧ registryOk (fst (handleSignaling now callId type u payload s))
  ∧ registryOk (fst (deleteRecording callId s)).
Proof.
  intros Hok.
  assert (∀ s', (∀ d c', activeCalls s' !! d = Some c' →
                   ∃ c, activeCalls s !! d = Some c
                        ∧ c_id c' = c_id c ∧ status c' = status c
                        ∧ participants c' = participants c
                        ∧ initiatorId c' = initiatorId c
                        ∧ connectionStatus c' = connectionStatus c) →
                registryOk s') as Hkeep.
  { intros s' Hs' d c' Hd. destruct (Hs' d c' Hd) as (c & Hc & -> & -> & _).
    by apply Hok. }
  split_and!.
  - intros d c' Hd. cbn in Hd. destruct (decide (d = callId)) as [->|Hne].
    + rewrite lookup_insert_eq in Hd. by injection Hd as <-.
    + rewrite lookup_insert_ne in Hd by done. by apply Hok.
  - destruct (activeCalls s !! callId) as [call|] eqn:Hlive.
    + destruct (joinCall_effect now callId u sock s call Hlive)
        as [[_ ->]|(_ & call' & -> & _ & Hid & _ & _ & _ & Hst)]; [done|].
      destruct (Hok callId call Hlive) as [Hk Hne].
      intros d c' Hd. cbn in Hd. destruct (decide (d = callId)) as [->|Hdne].
      * rewrite lookup_insert_eq in Hd. injection Hd as <-.
        split; [congruence|]. destruct Hst as [->|[_ ->]]; done.
      * rewrite lookup_insert_ne in Hd by done. by apply Hok.
    + by rewrite joinCall_not_found.
  - destruct (activeCalls s !! callId) as [call|] eqn:Hlive.
    + destruct (leaveCall_effect now callId u s call Hlive)
        as (call' & s' & -> & _ & Hid & _ & _ & _ & Hframe & _ & _ & Hcase).
      destruct (Hok callId call Hlive) as [Hk Hne].
      intros d c' Hd. cbn [fst] in Hd.
      destruct (decide (d = callId)) as [->|Hdne].
      * destruct Hcase as [(_ & Hgone & _)|(_ & Hsome & Hst & _)]; [congruence|].
        rewrite Hsome in Hd. injection Hd as <-. split; congruence.
      * rewrite Hframe in Hd by done. by apply Hok.
    + by rewrite leaveCall_not_found.
  - intros d c' Hd. rewrite endCall_removes in Hd.
    case_decide; [done|]. by apply Hok.
  - apply Hkeep. intros d c' Hd.
    apply (recording_methods_keep_calls now callId type payload u chunk s). auto.
  - apply Hkeep. intros d c' Hd.
    apply (recording_methods_keep_calls now callId type payload u chunk s). auto.
  - apply Hkeep. intros d c' Hd.
    apply (recording_methods_keep_calls now callId type payload u chunk s). auto.
  - apply Hkeep. intros d c' Hd.
    apply (recording_methods_keep_calls now callId type payload u chunk s). auto.
  - apply Hkeep. intros d c' Hd.
    apply (recording_methods_keep_calls now callId type payload u chunk s).
    auto 6.
Qed.

Lemma registryOk_empty : registryOk emptyService.
Proof. intros k c Hk. cbn in Hk. by rewrite lookup_empty in Hk. Qed.

(** From the empty service: the registry after the first call is created. *)
Lemma registry_holds_live_calls_by_id_witness : registryOk abcService.
Proof.
  apply (registry_holds_live_calls_by_id 0 "call_1" "audio" "" (IdStr "A")
           (IdStr "A") [IdStr "B"; IdStr "C"] None "" [] emptyService).
  exact registryOk_empty.
Defined.

Lemma step_status (callId : string) (o : Op) (s : Service) (call : Call) :
  followed callId s call →
  ∃ s' r call',
    step callId o s = (s', r)
    ∧ call' = match r with Ok (c, _) => c | Err _ => call end
    ∧ (statusRank (status call) ≤ statusRank (status call'))%nat
    ∧ (status call = ended → status call' = ended)
    ∧ followed callId s' call'.
Proof.
  intros [Hlive|Hgone].
  - destruct o as [now u sock|now u]; cbn [step].
    + destruct (joinCall_effect now callId u sock s call Hlive)
        as [[_ ->]|(_ & call' & -> & _ & _ & _ & _ & _ & Hst)].
      * eexists _, _, call. split; [reflexivity|]. split_and!; try done.
        by left.
      * eexists _, _, call'. split; [reflexivity|]. split_and!; try done.
        -- destruct Hst as [->|[-> ->]]; cbn; lia.
        -- destruct Hst as [->|[-> ->]]; done.
        -- left. cbn. apply lookup_insert_eq.
    + destruct (leaveCall_effect now callId u s call Hlive)
        as (call' & s' & -> & _ & _ & _ & _ & _ & _ & _ & _ & Hcase).
      eexists _, _, call'. split; [reflexivity|]. split; [done|].
      destruct Hcase as [(_ & Hg & Hst & _)|(_ & Hl & Hst & _)].
      * rewrite Hst. split_and!; [destruct (status call); cbn; lia|done|by right].
      * rewrite Hst. split_and!; [done|done|by left].
  - destruct o as [now u sock|now u]; cbn [step].
    + rewrite joinCall_not_found by done.
      eexists _, _, call. split; [reflexivity|]. split_and!; try done. by right.
    + rewrite leaveCall_not_found by done.
      eexists _, _, call. split; [reflexivity|]. split_and!; try done. by right.
Qed.

Lemma run_app (callId : string) (ops1 ops2 : list Op) :
  ∀ (s : Service) (call : Call),
    run callId (ops1 ++ ops2) s call
    = run callId ops2 (fst (run callId ops1 s call))
        (snd (run callId ops1 s call)).
Proof.
  induction ops1 as [|o rest IH]; intros s call; [done|].
  cbn [app run]. destruct (step callId o s) as [s' r]. apply IH.
Qed.

Lemma run_status (callId : string) (ops : list Op) :
  ∀ (s : Service) (call : Call),
    followed callId s call →
    (statusRank (status call)
     ≤ statusRank (status (snd (run callId ops s call))))%nat
    ∧ (status call = ended → status (snd (run callId ops s call)) = ended)
    ∧ followed callId (fst (run callId ops s call))
        (snd (run callId ops s call)).
Proof.
  induction ops as [|o rest IH]; intros s call Hinv; [done|].
  destruct (step_status callId o s call Hinv)
    as (s' & r & call' & Hstep & Hcall & Hle & Hended & Hinv').
  cbn [run]. rewrite Hstep, <- Hcall.
  destruct (IH s' call' Hinv') as (Hle' & Hended' & Hfol).
  split_and!; [lia|auto|done].
Qed.

(** X13: the status of a call only moves forward.  Along any sequence of
    join and leave requests on a live call, the status after more requests
    is never before the status after fewer, in the order initiating,
    active, ended; once [ended] it stays [ended]. *)
Theorem status_only_moves_forward (callId : string) (ops1 ops2 : list Op)
    (s : Service) (call : Call) :
  activeCalls s !! callId = Some call →
  (statusRank (status (snd (run callId ops1 s call)))
   ≤ statusRank (status (snd (run callId (ops1 ++ ops2) s call))))%nat
  ∧ (status (snd (run callId ops1 s call)) = ended →
     status (snd (run callId (ops1 ++ ops2) s call)) = ended).
Proof.
  intros Hlive. rewrite run_app.
  destruct (run_status callId ops1 s call (or_introl Hlive)) as (_ & _ & Hfol).
  destruct (run_status callId ops2 _ _ Hfol) as (Hle & Hended & _).
  by split.
Qed.

(** The running example: all join, B leaves, then A and C leave. *)
Lemma status_only_moves_forward_witness :
  let ops1 := [Join 1 (IdStr "A") "sock_a"; Join 2 (IdStr "B") "sock_b";
               Join 3 (IdStr "C") "sock_c"; Leave 4 (IdStr "B")] in
  let ops2 := [Leave 5 (IdStr "A"); Leave 6 (IdStr "C")] in
  ∃ call,
    activeCalls abcService !! "call_1" = Some call
    ∧ status (snd (run "call_1" ops1 abcService call)) = active
    ∧ status (snd (run "call_1" (ops1 ++ ops2) abcService call)) = ended
    ∧ (statusRank (status (snd (run "call_1" ops1 abcService call)))
       ≤ statusRank (status (snd (run "call_1" (ops1 ++ ops2) abcService call))))%nat.
Proof.
  cbv zeta. eexists. split; [vm_compute; reflexivity|].
  split; [vm_compute; reflexivity|]. split; [vm_compute; reflexivity|].
  apply (status_only_moves_forward "call_1"
           [Join 1 (IdStr "A") "sock_a"; Join 2 (IdStr "B") "sock_b";
            Join 3 (IdStr "C") "sock_c"; Leave 4 (IdStr "B")]
           [Leave 5 (IdStr "A"); Leave 6 (IdStr "C")] abcService).
  vm_compute. reflexivity.
Defined.

(** X14: [leaveCall] does not ask who leaves.  On a live call where no
    identity other than the requester is connected, a leave request of any
    identity, invited or not, ends the call: it returns the call [ended]
    with a participant count of 0, the call is out of the registry and,
    the history file being readable, its record is the last of the file. *)
Theorem leave_of_anyone_ends_unconnected_call (now : Z) (callId : string)
    (u : JsId) (s : Service) (call : Call) :
  activeCalls s !! callId = Some call →
  (∀ k, k ≠ propKey u → connectionStatus call !! k ≠ Some connected) →
  ∃ call' s',
    leaveCall now callId u s = (s', Ok (call', 0%nat))
    ∧ status call' = ended
    ∧ endTime call' = Some now
    ∧ activeCalls s' !! callId = None
    ∧ (historyFile s ≠ Garbled →
       ∃ h, historyFile s' = Json h ∧ last h = Some (toHistory call')).
Proof.
  intros Hlive Hnone.
  assert (connectedUsers (<[propKey u := disconnected]> (connectionStatus call))
          = []) as Hnil.
  { apply connectedUsers_nil. intros k.
    destruct (decide (k = propKey u)) as [->|Hne].
    - by rewrite lookup_insert_eq.
    - rewrite lookup_insert_ne by done. by apply Hnone. }
  destruct (leaveCall_effect now callId u s call Hlive)
    as (call' & s' & Hleave & Hcs & _ & _ & _ & _ & _ & _ & _ & Hcase).
  rewrite Hnil in Hleave. rewrite Hcs, Hnil in Hcase.
  exists call', s'. split; [exact Hleave|].
  destruct Hcase as [(_ & Hgone & Hst & Het & Hhist)|(Hno & _)]; [|done].
  split_and!; try done.
  intros Hok. eexists. split; [by apply Hhist|]. apply last_snoc.
Qed.

(** Nobody has joined the running example and the uninvited Z leaves. *)
Lemma leave_of_anyone_ends_unconnected_call_witness :
  ∃ call' s',
    leaveCall 1 "call_1" (IdStr "Z") abcService = (s', Ok (call', 0%nat))
    ∧ status call' = ended
    ∧ activeCalls s' !! "call_1" = None.
Proof.
  destruct (leave_of_anyone_ends_unconnected_call 1 "call_1" (IdStr "Z")
              abcService
              (mkCall "call_1" (IdStr "A") [IdStr "B"; IdStr "C"] "audio"
                 "Call" initiating 0 None 0 None []
                 (initConnectionStatus [IdStr "B"; IdStr "C"])))
    as (call' & s' & Hleave & Hst & _ & Hgone & _).
  - vm_compute. reflexivity.
  - intros k _. cbn [connectionStatus].
    rewrite initConnectionStatus_lookup. by case_decide.
  - by exists call', s'.
Defined.

(** ** Listing the calls of a user, and disconnecting *)

Lemma elem_of_getActiveCalls (order : list string) (s : Service) (call : Call) :
  call ∈ getActiveCalls order s
  ↔ ∃ k, k ∈ order ∧ activeCalls s !! k = Some call.
Proof. unfold getActiveCalls. apply list_elem_of_omap. Qed.

Lemma elem_of_getUserActiveCalls (order : list string) (u : JsId)
    (s : Service) (call : Call) :
  keyOrder order s →
  call ∈ getUserActiveCalls order u s
  ↔ (∃ k, activeCalls s !! k = Some call) ∧ belongsTo u call.
Proof.
  intros [_ Hkeys]. unfold getUserActiveCalls.
  rewrite list_elem_of_filter, elem_of_getActiveCalls. split.
  - intros [Hu (k & _ & Hk)]. split; [by exists k|done].
  - intros [(k & Hk) Hu]. split; [done|]. exists k. split; [|done].
    apply Hkeys. by eexists.
Qed.

(** X15: [getUserActiveCalls] answers with the calls of the registry of
    which the user is the initiator or a listed participant, and only
    those: a call just created is listed for its initiator and for each
    identity of its participants list, for nobody else, and no longer for
    anybody once it is ended. *)
Theorem created_call_is_listed_for_its_members (now1 now2 : Z)
    (callId : string) (initiator u : JsId) (ps : list JsId) (type : string)
    (ttl : option string) (order1 order2 : list string) (s : Service) :
  keyOrder order1 (fst (initiateCall now1 callId initiator ps type ttl s)) →
  keyOrder order2
    (fst (endCall now2 callId
            (fst (initiateCall now1 callId initiator ps type ttl s)))) →
  ∃ call,
    snd (initiateCall now1 callId initiator ps type ttl s) = Ok call
    ∧ (call ∈ getUserActiveCalls order1 u
                (fst (initiateCall now1 callId initiator ps type ttl s))
       ↔ u ∈ ps ∨ initiator = u)
    ∧ (∀ c, c ∈ getUserActiveCalls order1 u
                  (fst (initiateCall now1 callId initiator ps type ttl s)) →
            belongsTo u c)
    ∧ (∀ c, c ∈ getUserActiveCalls order2 u
                  (fst (endCall now2 callId
                          (fst (initiateCall now1 callId initiator ps type
                                  ttl s)))) →
            ∃ k, k ≠ callId ∧ activeCalls s !! k = Some c).
Proof.
  intros Hord1 Hord2. eexists. split; [reflexivity|].
  split_and!.
  - rewrite elem_of_getUserActiveCalls by done. split; [by intros [_ ?]|].
    intros Hu. split; [|done]. exists callId. cbn. apply lookup_insert_eq.
  - intros c Hc. by apply (elem_of_getUserActiveCalls order1) in Hc as [_ ?].
  - intros c Hc.
    apply (elem_of_getUserActiveCalls order2) in Hc as [(k & Hk) _]; [|done].
    rewrite endCall_removes in Hk. case_decide as Hne; [done|].
    exists k. split; [done|]. cbn in Hk. by rewrite lookup_insert_ne in Hk.
Qed.

Lemma created_call_is_listed_for_its_members_witness :
  ∃ call,
    activeCalls abcService !! "call_1" = Some call
    ∧ call ∈ getUserActiveCalls ["call_1"] (IdStr "B") abcService.
Proof.
  destruct (created_call_is_listed_for_its_members 0 1 "call_1" (IdStr "A")
              (IdStr "B") [IdStr "B"; IdStr "C"] "audio" None ["call_1"] []
              emptyService)
    as (call & Hcall & Hlisted & _).
  - split; [apply NoDup_singleton|]. intros k. cbn.
    rewrite list_elem_of_singleton. split.
    + intros ->. rewrite lookup_insert_eq. by eexists.
    + intros [c Hc]. destruct (decide (k = "call_1")) as [->|Hne]; [done|].
      rewrite lookup_insert_ne, lookup_empty in Hc by done. done.
  - split; [apply NoDup_nil_2|]. intros k. rewrite endCall_removes.
    split; [by intros ?%elem_of_nil|]. intros [c Hc].
    case_decide as Hne; [done|]. cbn in Hc.
    rewrite lookup_insert_ne, lookup_empty in Hc by done. done.
  - cbn in Hcall. injection Hcall as <-. eexists. split; [vm_compute; reflexivity|].
    apply Hlisted. left. apply elem_of_cons. by left.
Defined.

(** One leave of the 'disconnect' loop, seen from the registry. *)
Lemma leaveCall_registry (now : Z) (callId : string) (u : JsId) (s : Service) :
  (∀ d, d ≠ callId →
        activeCalls (fst (leaveCall now callId u s)) !! d = activeCalls s !! d)
  ∧ (∀ c', activeCalls (fst (leaveCall now callId u s)) !! callId = Some c' →
           ∃ c, activeCalls s !! callId = Some c
                ∧ participants c' = participants c
                ∧ initiatorId c' = initiatorId c
                ∧ connectionStatus c' !! propKey u = Some disconnected)
  ∧ (userConnections s !! u = None ∨ is_Some (activeCalls s !! callId) →
     userConnections (fst (leaveCall now callId u s)) !! u = None).
Proof.
  destruct (activeCalls s !! callId) as [call|] eqn:Hlive.
  - destruct (leaveCall_effect now callId u s call Hlive)
      as (call' & s' & -> & Hcs & _ & Hps & Hini & _ & Hframe & Hconn & _ & Hcase).
    cbn [fst]. split_and!; try done.
    intros c' Hc'. exists call.
    destruct Hcase as [(_ & Hgone & _)|(_ & Hsome & _)]; [congruence|].
    assert (c' = call') as -> by congruence.
    split_and!; try done. by rewrite Hcs, lookup_insert_eq.
  - rewrite leaveCall_not_found by done. cbn [fst]. split_and!; try done.
    + intros c' Hc'. congruence.
    + intros [Hn|[c Hc]]; done.
Qed.

(** The loop of the 'disconnect' handler over any list of calls. *)
Lemma disconnect_loop (now : string → Z) (u : JsId) (calls : list Call) :
  ∀ (s : Service) (out : list LeftNotice),
    let res :=
      foldl
        (λ acc call,
           (fst (leaveCall (now (c_id call)) (c_id call) u (fst acc)),
            snd acc ++ [ParticipantLeft (c_id call) u "disconnect"]))
        (s, out) calls in
    (∀ d c', activeCalls (fst res) !! d = Some c' →
             ∃ c, activeCalls s !! d = Some c
                  ∧ participants c' = participants c
                  ∧ initiatorId c' = initiatorId c
                  ∧ ((d ∈ c_id <$> calls
                      ∧ connectionStatus c' !! propKey u = Some disconnected)
                     ∨ ((d ∉ c_id <$> calls) ∧ c' = c)))
    ∧ (∀ d, d ∉ c_id <$> calls →
            activeCalls (fst res) !! d = activeCalls s !! d)
    ∧ (userConnections s !! u = None → userConnections (fst res) !! u = None)
    ∧ snd res
      = out ++ ((λ call, ParticipantLeft (c_id call) u "disconnect") <$> calls).
Proof.
  induction calls as [|call0 rest IH]; intros s out res.
  - subst res. cbn. split_and!; try done.
    + intros d c' Hd. exists c'. split_and!; try done. right.
      split; [apply not_elem_of_nil|done].
    + by rewrite app_nil_r.
  - subst res. cbn [foldl fst snd].
    set (s1 := fst (leaveCall (now (c_id call0)) (c_id call0) u s)).
    destruct (leaveCall_registry (now (c_id call0)) (c_id call0) u s)
      as (Hframe & Hown & Hconn).
    fold s1 in Hframe, Hown, Hconn.
    destruct (IH s1 (out ++ [ParticipantLeft (c_id call0) u "disconnect"]))
      as (Hcalls & Hothers & Hconn' & Hout).
    rewrite fmap_cons. split_and!.
    + intros d c' Hd. destruct (Hcalls d c' Hd) as (c1 & Hc1 & Hps & Hini & Hcase).
      destruct (decide (d = c_id call0)) as [->|Hne].
      * destruct (Hown c1 Hc1) as (c & Hc & Hps1 & Hini1 & Hdisc).
        exists c. split_and!; try congruence. left.
        split; [apply elem_of_cons; by left|].
        destruct Hcase as [[_ ?]|[_ ->]]; done.
      * rewrite Hframe in Hc1 by done. exists c1. split_and!; try done.
        destruct Hcase as [[Hin ?]|[Hnin ->]].
        -- left. split; [apply elem_of_cons; by right|done].
        -- right. split; [|done]. by intros [?|?]%elem_of_cons.
    + intros d Hd. rewrite Hothers.
      * apply Hframe. intros ->. apply Hd, elem_of_cons. by left.
      * intros Hin. apply Hd, elem_of_cons. by right.
    + intros Hn. apply Hconn'. apply Hconn. by left.
    + rewrite Hout. cbn. by rewrite <- app_assoc.
Qed.

(** X16: the 'disconnect' handler.  For a socket with a truthy user id,
    under a registry that stores each call by its id: afterwards the user
    is [disconnected] in every call still in the registry of which it is
    the initiator or a listed participant; the calls of other users are as
    they were and no call has appeared; one 'call:participant-left' notice
    goes to the room of each call the user was listed in, in the order of
    the list; and the connection entry of the user is gone whenever it had
    such a call.  For a falsy user id, 0 or the empty string, nothing
    happens. *)
Theorem disconnect_leaves_every_call (now : string → Z) (order : list string)
    (sock : Socket) (s : Service) :
  keyOrder order s →
  registryOk s →
  (truthyId (Some (sock_userId sock)) = false →
   on_disconnect now order sock s = (s, []))
  ∧ (truthyId (Some (sock_userId sock)) = true →
     (∀ d c', activeCalls (fst (on_disconnect now order sock s)) !! d = Some c' →
              belongsTo (sock_userId sock) c' →
              connectionStatus c' !! propKey (sock_userId sock)
              = Some disconnected)
     ∧ (∀ d c, activeCalls s !! d = Some c →
               ¬ belongsTo (sock_userId sock) c →
               activeCalls (fst (on_disconnect now order sock s)) !! d = Some c)
     ∧ (∀ d, activeCalls s !! d = None →
             activeCalls (fst (on_disconnect now order sock s)) !! d = None)
     ∧ (getUserActiveCalls order (sock_userId sock) s ≠ [] →
        userConnections (fst (on_disconnect now order sock s))
          !! sock_userId sock = None)
     ∧ snd (on_disconnect now order sock s)
       = (λ call, ParticipantLeft (c_id call) (sock_userId sock) "disconnect")
           <$> getUserActiveCalls order (sock_userId sock) s).
Proof.
  intros Hord Hok. unfold on_disconnect. cbv zeta. split.
  { intros ->. done. }
  intros ->. set (u := sock_userId sock).
  set (calls := getUserActiveCalls order u s).
  destruct (disconnect_loop now u calls s []) as (Hcalls & Hothers & Hconn & Hout).
  cbv zeta in Hcalls, Hothers, Hconn, Hout.
  assert (∀ d c, activeCalls s !! d = Some c →
                 (d ∈ c_id <$> calls ↔ belongsTo u c)) as Hids.
  { intros d c Hd. split.
    - intros (call & -> & Hin)%list_elem_of_fmap.
      apply (elem_of_getUserActiveCalls order) in Hin as [(k & Hk) Hu]; [|done].
      destruct (Hok k call Hk) as [Hid _].
      assert (c = call) as -> by congruence. done.
    - intros Hu. apply list_elem_of_fmap. exists c.
      destruct (Hok d c Hd) as [Hid _]. split; [done|].
      apply (elem_of_getUserActiveCalls order); [done|].
      split; [by exists d|done]. }
  split_and!.
  - intros d c' Hd Hu.
    destruct (Hcalls d c' Hd) as (c & Hc & Hps & Hini & [[_ ?]|[Hnin ->]]); [done|].
    exfalso. apply Hnin. by apply (Hids d c Hc).
  - intros d c Hd Hnu. rewrite Hothers; [done|].
    intros Hin. apply Hnu. by apply (Hids d c Hd).
  - intros d Hd.
    destruct (activeCalls (foldl _ (s, []) calls).1 !! d) as [c'|] eqn:Hd'; [|done].
    destruct (Hcalls d c' Hd') as (c & Hc & _). congruence.
  - intros Hne. destruct calls as [|call0 rest] eqn:Hcallseq; [done|].
    cbn [foldl fst snd].
    destruct (disconnect_loop now u rest
                (fst (leaveCall (now (c_id call0)) (c_id call0) u s))
                ([] ++ [ParticipantLeft (c_id call0) u "disconnect"]))
      as (_ & _ & Hkeep & _).
    apply Hkeep.
    apply (leaveCall_registry (now (c_id call0)) (c_id call0) u s).
    right.
    assert (call0 ∈ getUserActiveCalls order u s) as Hin.
    { fold calls. rewrite Hcallseq. apply elem_of_cons. by left. }
    apply (elem_of_getUserActiveCalls order) in Hin as [(k & Hk) _]; [|done].
    destruct (Hok k call0 Hk) as [-> _]. by eexists.
  - exact Hout.
Qed.

(** B is in call_1 and in call_2 and has joined both; its socket drops. *)
Lemma disconnect_leaves_every_call_witness :
  let s1 := fst (initiateCall 1 "call_2" (IdStr "D") [IdStr "B"] "video" None
                   abcService) in
  let s2 := fst (joinCall 2 "call_1" (IdStr "B") "sock_b" s1) in
  let s3 := fst (joinCall 3 "call_2" (IdStr "B") "sock_b" s2) in
  let s4 := fst (joinCall 4 "call_1" (IdStr "C") "sock_c" s3) in
  snd (on_disconnect (λ _, 5) ["call_1"; "call_2"]
         (mkSocket (IdStr "B") "sock_b") s4)
  = [ParticipantLeft "call_1" (IdStr "B") "disconnect";
     ParticipantLeft "call_2" (IdStr "B") "disconnect"].
Proof.
  cbv zeta.
  set (s4 := fst (joinCall 4 "call_1" (IdStr "C") "sock_c" _)).
  assert (dom (activeCalls s4) = {["call_1"; "call_2"]}) as Hdom.
  { vm_compute. reflexivity. }
  destruct (disconnect_leaves_every_call (λ _, 5) ["call_1"; "call_2"]
              (mkSocket (IdStr "B") "sock_b") s4) as [_ Hgo].
  - split.
    + apply NoDup_cons. split; [|apply NoDup_singleton].
      intros Heq%list_elem_of_singleton. discriminate Heq.
    + intros k. rewrite <- elem_of_dom, Hdom. set_unfold. tauto.
  - intros k c Hk.
    assert (k ∈ dom (activeCalls s4)) as Hin by (apply elem_of_dom; by eexists).
    rewrite Hdom in Hin.
    apply elem_of_union in Hin as [->%elem_of_singleton| ->%elem_of_singleton];
      vm_compute in Hk; injection Hk as <-; by split.
  - destruct (Hgo eq_refl) as (_ & _ & _ & _ & ->). vm_compute. reflexivity.
Defined.

(** ** Counting the connected *)

Lemma connectedCount_length (cs : gmap string ConnStatus) :
  connectedCount cs = length (connectedUsers cs).
Proof.
  unfold connectedCount, connectedUsers. rewrite length_fmap.
  induction (map_to_list cs) as [|[k v] l IH]; [done|].
  rewrite fmap_cons, !filter_cons. cbn [snd].
  destruct (decide (v = connected)); cbn [length]; by rewrite IH.
Qed.

Lemma connectedUsers_size (cs : gmap string ConnStatus) :
  length (connectedUsers cs)
  = size (filter (λ kv : string * ConnStatus, snd kv = connected) cs).
Proof.
  unfold connectedUsers. rewrite length_fmap, map_filter_alt.
  rewrite map_size_list_to_map; [done|].
  eapply sublist_NoDup; [apply (NoDup_fst_map_to_list cs)|].
  apply fmap_sublist, sublist_filter.
Qed.

Lemma connected_after_join (cs : gmap string ConnStatus) (k : string) :
  length (connectedUsers (<[k := connected]> cs))
  = if decide (cs !! k = Some connected)
    then length (connectedUsers cs)
    else S (length (connectedUsers cs)).
Proof.
  rewrite !connectedUsers_size, map_filter_insert_True by done.
  rewrite map_size_insert.
  destruct (filter _ cs !! k) as [v|] eqn:Hk.
  - apply map_lookup_filter_Some in Hk as [Hk Hv]. cbn in Hv. subst v.
    by rewrite decide_True.
  - rewrite decide_False; [done|]. intros Hc.
    assert (filter (λ kv : string * ConnStatus, kv.2 = connected) cs !! k
            = Some connected) as Hk'
      by by apply map_lookup_filter_Some.
    congruence.
Qed.

Lemma connected_after_leave (cs : gmap string ConnStatus) (k : string) :
  length (connectedUsers (<[k := disconnected]> cs))
  = if decide (cs !! k = Some connected)
    then pred (length (connectedUsers cs))
    else length (connectedUsers cs).
Proof.
  rewrite !connectedUsers_size, map_filter_insert_False by done.
  rewrite map_filter_delete, map_size_delete.
  destruct (filter _ cs !! k) as [v|] eqn:Hk.
  - apply map_lookup_filter_Some in Hk as [Hk Hv]. cbn in Hv. subst v.
    by rewrite decide_True.
  - rewrite decide_False; [done|]. intros Hc.
    assert (filter (λ kv : string * ConnStatus, kv.2 = connected) cs !! k
            = Some connected) as Hk'
      by by apply map_lookup_filter_Some.
    congruence.
Qed.

(** X17: the [participantCount] of the results is the number of
    identities whose status is [connected].  A join of an invited identity
    returns the old number plus one, or the old number if the joiner was
    connected already, and never 0; a leave returns the old number minus
    one if the leaver was connected, else the old number. *)
Theorem participantCount_counts_connected (now : Z) (callId : string)
    (u : JsId) (sock : string) (s : Service) (call : Call) :
  activeCalls s !! callId = Some call →
  (belongsTo u call →
   ∃ call' n s1,
     joinCall now callId u sock s = (s1, Ok (call', n))
     ∧ n = length (connectedUsers (connectionStatus call'))
     ∧ n = (if decide (connectionStatus call !! propKey u = Some connected)
            then connectedCount (connectionStatus call)
            else S (connectedCount (connectionStatus call)))
     ∧ (1 ≤ n)%nat)
  ∧ (∃ call' n s1,
       leaveCall now callId u s = (s1, Ok (call', n))
       ∧ n = length (connectedUsers (connectionStatus call'))
       ∧ n = (if decide (connectionStatus call !! propKey u = Some connected)
              then pred (connectedCount (connectionStatus call))
              else connectedCount (connectionStatus call))).
Proof.
  intros Hlive. split.
  - intros Hu. destruct (joinCall_effect now callId u sock s call Hlive)
      as [[Hnot _]|(_ & call' & -> & Hcs & _)]; [done|].
    eexists call', _, _. split; [reflexivity|].
    rewrite !connectedCount_length, Hcs, connected_after_join.
    split; [done|]. split; [done|].
    case_decide as Hc; [|lia].
    assert (propKey u ∈ connectedUsers (connectionStatus call)) as Hin
      by by apply elem_of_connectedUsers.
    destruct (connectedUsers (connectionStatus call));
      [by apply elem_of_nil in Hin|cbn; lia].
  - destruct (leaveCall_effect now callId u s call Hlive)
      as (call' & s' & -> & Hcs & _).
    eexists call', _, _. split; [reflexivity|].
    rewrite !connectedCount_length, Hcs, connected_after_leave. done.
Qed.

(** In the running example, B joining and B leaving before any join. *)
Lemma participantCount_counts_connected_witness :
  ∃ call' s1,
    joinCall 1 "call_1" (IdStr "B") "sock_b" abcService = (s1, Ok (call', 1%nat))
    ∧ ∃ call2 s2, leaveCall 1 "call_1" (IdStr "B") abcService
                  = (s2, Ok (call2, 0%nat)).
Proof.
  destruct (participantCount_counts_connected 1 "call_1" (IdStr "B") "sock_b"
              abcService
              (mkCall "call_1" (IdStr "A") [IdStr "B"; IdStr "C"] "audio"
                 "Call" initiating 0 None 0 None []
                 (initConnectionStatus [IdStr "B"; IdStr "C"])))
    as [Hj (c2 & n2 & s2 & Hleave & _ & Hn2)].
  - vm_compute. reflexivity.
  - destruct Hj as (c1 & n1 & s1 & Hjoin & _ & Hn1 & _).
    { left. cbn. apply elem_of_cons. by left. }
    vm_compute in Hn1, Hn2. subst n1 n2.
    exists c1, s1. split; [exact Hjoin|]. by exists c2, s2.
Defined.

(** ** Requests of the initiator *)

Lemma pathJoin_not_empty (dir name : string) :
  String.eqb (pathJoin dir name) "" = false.
Proof. unfold pathJoin. by destruct dir. Qed.

(** X18: what the guarded handlers do for the initiator.  On a live call
    that is not being recorded, 'call:start-recording' from the
    initiator's socket announces the new recording to the room of the
    call; 'call:stop-recording' then announces the completed recording to
    the room and hands it, with the call that now carries it, to the
    analysis; 'call:end' finally announces the ended call to the room and
    the call leaves the registry with that recording. *)
Theorem initiator_requests_go_through (t1 t2 t3 : Z) (sock : Socket)
    (callId : string) (s : Service) (call : Call) :
  activeCalls s !! callId = Some call →
  sock_userId sock = initiatorId call →
  ¬ isRecording call →
  ∃ r s1 r' s2 call2 call3 s3,
    on_call_start_recording t1 sock callId s
      = (s1, [Emit (ToRoom callId) "call:recording-started" (PRecording r)])
    ∧ r_status r = rec_recording
    ∧ on_call_stop_recording t2 sock callId s1
      = (s2, [Emit (ToRoom callId) "call:recording-stopped" (PRecording r');
              AnalyzeCallRecording callId r' (Some call2)])
    ∧ r_status r' = rec_completed ∧ r_id r' = r_id r
    ∧ r_startTime r' = t1 ∧ r_endTime r' = Some t2
    ∧ recording call2 = Some r'
    ∧ on_call_end t3 sock callId s2
      = (s3, [Emit (ToRoom callId) "call:ended" (PCall call3)])
    ∧ status call3 = ended ∧ recording call3 = Some r'
    ∧ activeCalls s3 !! callId = None.
Proof.
  intros Hlive Hini Hnot.
  unfold on_call_start_recording, on_call_stop_recording, on_call_end,
    getActiveCall.
  rewrite Hlive.
  rewrite (bool_decide_false (initiatorId call ≠ sock_userId sock))
    by (intros H; by apply H).
  rewrite (startRecording_fresh t1 callId s call Hlive Hnot).
  set (r := mkRecording _ _ _ _ _ _).
  set (call1 := set_recording (Some r) call).
  set (s1 := set_activeCalls _ s).
  assert (activeCalls s1 !! callId = Some call1) as Hlive1
    by (subst s1; cbn; apply lookup_insert_eq).
  pose proof (stopRecording_recording t2 callId s1 call1 r Hlive1 eq_refl eq_refl)
    as Hstop.
  set (r' := mkRecording _ _ rec_completed _ _ _) in Hstop.
  set (call2 := set_recording (Some r') call1) in Hstop.
  set (s2 := set_activeCalls _ s1) in Hstop.
  assert (activeCalls s2 !! callId = Some call2) as Hlive2
    by (subst s2; cbn; apply lookup_insert_eq).
  destruct (endCall_live t3 callId s2 call2 Hlive2)
    as (call3 & Hend & Hst & _ & _ & _ & Hrec & _).
  pose proof (endCall_removes t3 callId s2 callId) as Hgone.
  rewrite decide_True in Hgone by done.
  exists r, s1, r', s2, call2, call3, (fst (endCall t3 callId s2)).
  split; [reflexivity|]. split; [done|].
  rewrite Hlive1.
  rewrite (bool_decide_false (initiatorId call1 ≠ sock_userId sock))
    by (intros H; by apply H).
  rewrite Hstop, Hlive2.
  rewrite (bool_decide_false (initiatorId call2 ≠ sock_userId sock))
    by (intros H; by apply H).
  assert (String.eqb (r_path r') "" = false) as ->
    by apply pathJoin_not_empty.
  rewrite Hend in Hgone |- *. cbn [negb fst] in Hgone |- *.
  by split_and!.
Qed.

Lemma initiator_requests_go_through_witness :
  ∃ r s1,
    on_call_start_recording 1 (mkSocket (IdStr "A") "sock_a") "call_1"
      abcService
    = (s1, [Emit (ToRoom "call_1") "call:recording-started" (PRecording r)])
    ∧ r_status r = rec_recording.
Proof.
  destruct (initiator_requests_go_through 1 2 3 (mkSocket (IdStr "A") "sock_a")
              "call_1" abcService
              (mkCall "call_1" (IdStr "A") [IdStr "B"; IdStr "C"] "audio"
                 "Call" initiating 0 None 0 None []
                 (initConnectionStatus [IdStr "B"; IdStr "C"])))
    as (r & s1 & _ & _ & _ & _ & _ & Hstart & Hst & _).
  - vm_compute. reflexivity.
  - reflexivity.
  - intros (r & Hr & _). cbn in Hr. done.
  - by exists r, s1.
Defined.

(** ** Connection entries *)

(** X19: the connection entries are per user, not per call.  A join by an
    invited user stores its socket id under the user, over any entry it
    had; a leave of one call removes the entry of the user even while the
    user is still [connected] in another live call, which is left as it
    is. *)
Theorem leave_drops_the_only_connection_entry (t1 t2 : Z) (callId other : string)
    (u : JsId) (sock : string) (s : Service) (call : Call) (call2 : Call) :
  activeCalls s !! callId = Some call →
  activeCalls s !! other = Some call2 →
  other ≠ callId →
  belongsTo u call2 →
  ∃ call2' s1 s2,
    fst (joinCall t1 other u sock s) = s1
    ∧ userConnections s1 !! u = Some sock
    ∧ activeCalls s1 !! other = Some call2'
    ∧ connectionStatus call2' !! propKey u = Some connected
    ∧ fst (leaveCall t2 callId u s1) = s2
    ∧ userConnections s2 !! u = None
    ∧ activeCalls s2 !! other = Some call2'.
Proof.
  intros Hlive Hother Hne Hu.
  destruct (joinCall_effect t1 other u sock s call2 Hother)
    as [[Hnot _]|(_ & call2' & Hjoin & Hcs & _)]; [done|].
  rewrite Hjoin. cbn [fst]. set (s1 := set_userConnections _ _).
  assert (activeCalls s1 !! callId = Some call) as Hlive1.
  { subst s1. cbn. by rewrite lookup_insert_ne. }
  assert (activeCalls s1 !! other = Some call2') as Hother1.
  { subst s1. cbn. apply lookup_insert_eq. }
  destruct (leaveCall_effect t2 callId u s1 call Hlive1)
    as (call' & s2 & Hleave & _ & _ & _ & _ & _ & Hframe & Hconn & _).
  exists call2', s1, s2. rewrite Hleave. cbn [fst]. split_and!; try done.
  - subst s1. cbn. apply lookup_insert_eq.
  - by rewrite Hcs, lookup_insert_eq.
  - by rewrite Hframe.
Qed.

(** B is listed in call_1 and call_2, joins call_2 and leaves call_1. *)
Lemma leave_drops_the_only_connection_entry_witness :
  let s0 := fst (initiateCall 1 "call_2" (IdStr "D") [IdStr "B"] "video" None
                   abcService) in
  let s1 := fst (joinCall 2 "call_2" (IdStr "B") "sock_b" s0) in
  let s2 := fst (leaveCall 3 "call_1" (IdStr "B") s1) in
  userConnections s1 !! IdStr "B" = Some "sock_b"
  ∧ userConnections s2 !! IdStr "B" = None.
Proof.
  cbv zeta.
  destruct (leave_drops_the_only_connection_entry 2 3 "call_1" "call_2"
              (IdStr "B") "sock_b"
              (fst (initiateCall 1 "call_2" (IdStr "D") [IdStr "B"] "video"
                      None abcService))
              (mkCall "call_1" (IdStr "A") [IdStr "B"; IdStr "C"] "audio"
                 "Call" initiating 0 None 0 None []
                 (initConnectionStatus [IdStr "B"; IdStr "C"]))
              (mkCall "call_2" (IdStr "D") [IdStr "B"] "video"
                 "Call" initiating 1 None 0 None []
                 (initConnectionStatus [IdStr "B"])))
    as (c & s1 & s2 & <- & Hin & _ & _ & <- & Hout & _).
  - vm_compute. reflexivity.
  - vm_compute. reflexivity.
  - done.
  - left. cbn. apply elem_of_cons. by left.
  - by split.
Defined.

(** ** The signaling log *)

Lemma signal_loop (callId : string) (sigs : list SignalEvent) :
  ∀ (s : Service) (out : list Effect) (call : Call),
    activeCalls s !! callId = Some call →
    let res :=
      foldl
        (λ acc e,
           (fst (on_webrtc_signal (sg_now e) (sg_sock e) callId (sg_type e)
                   (sg_target e) (sg_payload e) (fst acc)),
            snd acc
            ++ snd (on_webrtc_signal (sg_now e) (sg_sock e) callId (sg_type e)
                      (sg_target e) (sg_payload e) (fst acc))))
        (s, out) sigs in
    (∃ call',
       activeCalls (fst res) !! callId = Some call'
       ∧ messages call' = messages call ++ (signalMessage <$> sigs)
       ∧ status call' = status call
       ∧ connectionStatus call' = connectionStatus call
       ∧ participants call' = participants call
       ∧ recording call' = recording call)
    ∧ snd res = out ++ (signalRelay callId <$> sigs)
    ∧ (∀ d, d ≠ callId → activeCalls (fst res) !! d = activeCalls s !! d)
    ∧ userConnections (fst res) = userConnections s
    ∧ historyFile (fst res) = historyFile s.
Proof.
  induction sigs as [|e rest IH]; intros s out call Hlive res.
  - subst res. cbn. split_and!; try done; [|by rewrite app_nil_r].
    exists call. by rewrite app_nil_r.
  - assert (on_webrtc_signal (sg_now e) (sg_sock e) callId (sg_type e)
              (sg_target e) (sg_payload e) s
            = (set_activeCalls
                 (<[callId := set_messages (messages call ++ [signalMessage e])
                                call]> (activeCalls s)) s,
               [signalRelay callId e])) as Hstep.
    { unfold on_webrtc_signal, handleSignaling. by rewrite Hlive. }
    subst res. cbn [foldl fst snd]. rewrite Hstep. cbn [fst snd].
    set (call1 := set_messages _ call).
    set (s1 := set_activeCalls _ s).
    assert (activeCalls s1 !! callId = Some call1) as Hlive1
      by (subst s1; cbn; apply lookup_insert_eq).
    destruct (IH s1 (out ++ [signalRelay callId e]) call1 Hlive1)
      as ((call' & Hc' & Hmsg & Hst & Hcs & Hps & Hrec) & Hout & Hframe & Huc & Hhf).
    split_and!; try done.
    + exists call'. split_and!; try done.
      rewrite Hmsg. subst call1. cbn. by rewrite <- app_assoc.
    + rewrite Hout. rewrite fmap_cons, <- app_assoc. done.
    + intros d Hd. rewrite Hframe by done. subst s1. cbn.
      by rewrite lookup_insert_ne.
Qed.

(** X20: the signaling log is written in arrival order.  After any
    sequence of 'webrtc:signal' events on a live call, of any senders, the
    [messages] of the call are the earlier ones followed by one message
    per event, in the order of arrival, each with its type, sender, payload
    and time; one relay instruction was emitted per event, in the same
    order; and nothing else of the call or the service has changed. *)
Theorem signals_are_logged_in_arrival_order (callId : string)
    (sigs : list SignalEvent) (s : Service) (call : Call) :
  activeCalls s !! callId = Some call →
  (∃ call',
     activeCalls (fst (sendSignals callId sigs s)) !! callId = Some call'
     ∧ messages call' = messages call ++ (signalMessage <$> sigs)
     ∧ status call' = status call
     ∧ connectionStatus call' = connectionStatus call
     ∧ participants call' = participants call
     ∧ recording call' = recording call)
  ∧ snd (sendSignals callId sigs s) = signalRelay callId <$> sigs
  ∧ (∀ d, d ≠ callId →
          activeCalls (fst (sendSignals callId sigs s)) !! d
          = activeCalls s !! d)
  ∧ userConnections (fst (sendSignals callId sigs s)) = userConnections s
  ∧ historyFile (fst (sendSignals callId sigs s)) = historyFile s.
Proof.
  intros Hlive. exact (signal_loop callId sigs s [] call Hlive).
Qed.

(** An offer of B to C, then an answer of C to everybody. *)
Lemma signals_are_logged_in_arrival_order_witness :
  ∃ call',
    activeCalls
      (fst (sendSignals "call_1"
              [mkSignalEvent 1 (mkSocket (IdStr "B") "sock_b") "offer"
                 (Some (IdStr "C")) "sdp1";
               mkSignalEvent 2 (mkSocket (IdStr "C") "sock_c") "answer"
                 None "sdp2"]
              abcService)) !! "call_1" = Some call'
    ∧ messages call'
      = [mkMessage "offer" (IdStr "B") "sdp1" 1;
         mkMessage "answer" (IdStr "C") "sdp2" 2].
Proof.
  destruct (signals_are_logged_in_arrival_order "call_1"
              [mkSignalEvent 1 (mkSocket (IdStr "B") "sock_b") "offer"
                 (Some (IdStr "C")) "sdp1";
               mkSignalEvent 2 (mkSocket (IdStr "C") "sock_c") "answer"
                 None "sdp2"]
              abcService
              (mkCall "call_1" (IdStr "A") [IdStr "B"; IdStr "C"] "audio"
                 "Call" initiating 0 None 0 None []
                 (initConnectionStatus [IdStr "B"; IdStr "C"])))
    as ((call' & Hc & Hmsg & _) & _).
  - vm_compute. reflexivity.
  - by exists call'.
Defined.

(** ** The counters of [getStatus] *)

(** X21: the first counter of [getStatus] is the number of calls in the
    registry.  Creating a call under an id not in use raises it by one;
    creating one under an id in use leaves it as it is, the new call
    taking the place of the old one, of which no history record is
    written; ending a live call lowers it by one. *)
Theorem getStatus_counts_live_calls (now : Z) (callId : string)
    (initiator : JsId) (ps : list JsId) (type : string) (ttl : option string)
    (s : Service) :
  (activeCalls s !! callId = None →
   fst (getStatus (fst (initiateCall now callId initiator ps type ttl s)))
   = S (fst (getStatus s)))
  ∧ (∀ old, activeCalls s !! callId = Some old →
       fst (getStatus (fst (initiateCall now callId initiator ps type ttl s)))
       = fst (getStatus s)
       ∧ historyFile (fst (initiateCall now callId initiator ps type ttl s))
         = historyFile s
       ∧ (∃ call, activeCalls
                    (fst (initiateCall now callId initiator ps type ttl s))
                    !! callId = Some call
                  ∧ status call = initiating ∧ participants call = ps
                  ∧ messages call = [] ∧ recording call = None)
       ∧ fst (getStatus (fst (endCall now callId s))) = pred (fst (getStatus s))).
Proof.
  split.
  - intros Hfree. cbn. by apply map_size_insert_None.
  - intros old Hold. split_and!.
    + cbn. by apply map_size_insert_Some.
    + done.
    + eexists. split; [cbn; apply lookup_insert_eq|done].
    + destruct (endCall_live now callId s old Hold) as (call' & -> & _).
      cbn. by apply map_size_delete_Some.
Qed.

(** A second call next to the running example, then the same id again. *)
Lemma getStatus_counts_live_calls_witness :
  fst (getStatus (fst (initiateCall 1 "call_2" (IdStr "D") [IdStr "B"] "video"
                         None abcService))) = 2%nat
  ∧ fst (getStatus (fst (initiateCall 1 "call_1" (IdStr "D") [IdStr "B"]
                           "video" None abcService))) = 1%nat.
Proof.
  destruct (getStatus_counts_live_calls 1 "call_2" (IdStr "D") [IdStr "B"]
              "video" None abcService) as [Hfresh _].
  destruct (getStatus_counts_live_calls 1 "call_1" (IdStr "D") [IdStr "B"]
              "video" None abcService) as [_ Hused].
  split.
  - rewrite Hfresh; [reflexivity|]. vm_compute. reflexivity.
  - destruct (Hused (mkCall "call_1" (IdStr "A") [IdStr "B"; IdStr "C"] "audio"
                       "Call" initiating 0 None 0 None []
                       (initConnectionStatus [IdStr "B"; IdStr "C"])))
      as [-> _]; [vm_compute; reflexivity|reflexivity].
Defined.
